(** * Gro API client: unit conversion, series resolution, source ranking

    A shallow embedding of the algorithmic core of [gro/client.py]
    ([GroClient.convert_unit], [GroClient.get_data_points],
    [GroClient.find_data_series]) together with the two operations of the
    [lib] module that the client delegates to and that the catalogue
    specification describes ([rank_series_by_source],
    [get_descendant_regions]).

    Python dictionaries are finite maps from strings to Python values;
    data points are mutable objects living in a store, because
    [convert_unit] assigns to the dictionary it is given.  Numbers are
    exact rationals ([Qc]): the arithmetic of the conversion is studied
    without rounding. *)

From Stdlib Require Import QArith Qcanon Field.
From stdpp Require Import numbers gmap strings list fin_maps.

Local Open Scope Z_scope.
Local Open Scope string_scope.
Local Open Scope list_scope.

(** ** Python values and dictionaries *)

Module Py.

(** The values that occur in selections, data points and unit records. *)
Inductive pyval : Type :=
| VNone
| VBool (b : bool)
| VInt (z : Z)
| VFloat (q : Qc)
| VStr (s : string).

#[global] Instance pyval_eq_dec : EqDecision pyval.
Proof. solve_decision. Defined.

Abbreviation dict := (gmap string pyval).

(** [d.get(k)]: a missing key reads as [None]. *)
Definition get (d : dict) (k : string) : pyval :=
  match d !! k with
  | Some v => v
  | None => VNone
  end.

(** [d.get(k, dflt)]: the default replaces a missing key only. *)
Definition get_default (d : dict) (k : string) (dflt : pyval) : pyval :=
  match d !! k with
  | Some v => v
  | None => dflt
  end.

(** [k in d]. *)
Definition contains (d : dict) (k : string) : bool :=
  bool_decide (is_Some (d !! k)).

(** [v is None]. *)
Definition is_none (v : pyval) : bool :=
  match v with
  | VNone => true
  | _ => false
  end.

(** Truth value testing, as done by [if v:] and [not v]. *)
Definition truthy (v : pyval) : bool :=
  match v with
  | VNone => false
  | VBool b => b
  | VInt z => negb (z =? 0)%Z
  | VFloat q => negb (bool_decide (q = 0%Qc))
  | VStr s => negb (bool_decide (s = ""))
  end.

(** The numeric reading of a value; booleans count as 0 and 1. *)
Definition to_num (v : pyval) : option Qc :=
  match v with
  | VInt z => Some (Qc_of_Z z)
  | VFloat q => Some q
  | VBool b => Some (Qc_of_Z (if b then 1 else 0))
  | VNone | VStr _ => None
  end.

(** [a == b]: numbers compare by value across [int] and [float]. *)
Definition py_eq (a b : pyval) : bool :=
  match to_num a, to_num b with
  | Some x, Some y => bool_decide (x = y)
  | None, None => bool_decide (a = b)
  | _, _ => false
  end.

End Py.
Export Py.

(** ** Exceptions and results *)

(** The exceptions the modelled code can raise.  [NotConvertible u] is
    [Exception('unit_id {} is not convertible'.format(u))];
    [AttributeError] is what calling [.get] on [None] raises;
    [TypeError] is arithmetic on a value that is not a number. *)
Inductive exn : Type :=
| NotConvertible (unit_id : pyval)
| AttributeError
| TypeError.

Inductive result (A : Type) : Type :=
| Ok (a : A)
| Raise (e : exn).
Arguments Ok {A} a.
Arguments Raise {A} e.

#[global] Instance result_ret : MRet result := λ A a, Ok a.
#[global] Instance result_bind : MBind result := λ A B k r,
  match r with
  | Ok a => k a
  | Raise e => Raise e
  end.

(** ** The object store *)

(** Dictionaries are objects: a data point is a location, and the store
    maps each live location to the current contents of its dictionary. *)
Definition loc := nat.
Abbreviation store := (gmap loc dict).

Definition deref (σ : store) (p : loc) : dict := default ∅ (σ !! p).

(** [point[k] = v] *)
Definition setitem (σ : store) (p : loc) (k : string) (v : pyval) : store :=
  <[p := <[k := v]> (deref σ p)]> σ.

(** ** Unit conversion: [GroClient.convert_unit] *)

(** What [lookup] returns, as far as [convert_unit] reads it:
    [baseConvFactor e] is [e.get('baseConvFactor')], with Python's [None]
    (key missing) as Rocq's [None]. *)
Record entity : Type := { baseConvFactor : option dict }.

Section ConvertUnit.

(** [self.lookup(entity_type, entity_id)], the remote catalogue. *)
Variable lookup : string → pyval → entity.

(** [x.get(k)] on an optional dictionary: [None.get] raises. *)
Definition opt_get (x : option dict) (k : string) : result pyval :=
  match x with
  | Some d => Ok (get d k)
  | None => Raise AttributeError
  end.

Definition num (v : pyval) : result Qc :=
  match to_num v with
  | Some q => Ok q
  | None => Raise TypeError
  end.

(** The new value of a point whose value is [v]:
    [float((v * from.factor + from.offset) - to.offset) / to.factor]. *)
Definition converted_value (from_cf to_cf : dict) (v : pyval) : result Qc :=
  x ← num v;
  ff ← num (get from_cf "factor");
  fo ← num (get_default from_cf "offset" (VInt 0));
  to ← num (get_default to_cf "offset" (VInt 0));
  tf ← num (get to_cf "factor");
  Ok (((x * ff + fo) - to) / tf)%Qc.

Definition convert_unit (σ : store) (point : loc) (target_unit_id : pyval)
  : result (loc * store) :=
  let d := deref σ point in
  if is_none (get d "unit_id") || py_eq (get d "unit_id") target_unit_id
  then Ok (point, σ)
  else
    let from_convert_factor := baseConvFactor (lookup "units" (get d "unit_id")) in
    ff ← opt_get from_convert_factor "factor";
    if negb (truthy ff) then Raise (NotConvertible (get d "unit_id"))
    else
      let to_convert_factor := baseConvFactor (lookup "units" target_unit_id) in
      tf ← opt_get to_convert_factor "factor";
      if negb (truthy tf) then Raise (NotConvertible target_unit_id)
      else
        σ1 ←
          (if negb (is_none (get d "value"))
           then
             r ← converted_value (default ∅ from_convert_factor)
                                     (default ∅ to_convert_factor)
                                     (get d "value");
             Ok (setitem σ point "value" (VFloat r))
           else Ok σ);
        Ok (point, setitem σ1 point "unit_id" target_unit_id).

(** What [convert_unit] makes of a dictionary with contents [d]. *)
Definition convert_dict (d : dict) (t : pyval) : result dict :=
  if is_none (get d "unit_id") || py_eq (get d "unit_id") t then Ok d
  else
    let from_cf := baseConvFactor (lookup "units" (get d "unit_id")) in
    ff ← opt_get from_cf "factor";
    if negb (truthy ff) then Raise (NotConvertible (get d "unit_id"))
    else
      let to_cf := baseConvFactor (lookup "units" t) in
      tf ← opt_get to_cf "factor";
      if negb (truthy tf) then Raise (NotConvertible t)
      else
        d1 ← (if negb (is_none (get d "value"))
              then r ← converted_value (default ∅ from_cf) (default ∅ to_cf)
                                       (get d "value");
                   Ok (<["value" := VFloat r]> d)
              else Ok d);
        Ok (<["unit_id" := t]> d1).

(** The store after a successful call: the point holds the converted
    contents, every other object is as before. *)
Definition updated (σ σ' : store) (p : loc) (d' : dict) : Prop :=
  ∀ q, deref σ' q = if decide (q = p) then d' else deref σ q.

(** Unit [u] is convertible, with factor [f] and offset [o]: its
    conversion record is present, the factor is a number other than
    zero, and the offset (0 when the record has none) is a number. *)
Definition convertible (u : pyval) (f o : Qc) : Prop :=
  ∃ cf, baseConvFactor (lookup "units" u) = Some cf
        ∧ to_num (get cf "factor") = Some f
        ∧ f ≠ 0%Qc
        ∧ to_num (get_default cf "offset" (VInt 0)) = Some o.

End ConvertUnit.

(** ** Retrieving data points: [GroClient.get_data_points] *)

Section GetDataPoints.

Variable lookup : string → pyval → entity.

(** [lib.get_data_points(access_token, api_host, **selections)]: the
    transport layer builds the list of point objects in the store. *)
Variable lib_get_data_points : store → dict → list loc * store.

(** [list(map(functools.partial(self.convert_unit, target_unit_id=t), pts))]:
    the points are converted one after the other, in list order. *)
Fixpoint map_convert_unit (σ : store) (pts : list loc) (t : pyval)
  : result (list loc * store) :=
  match pts with
  | [] => Ok ([], σ)
  | p :: rest =>
      r ← convert_unit lookup σ p t;
      rs ← map_convert_unit r.2 rest t;
      Ok (r.1 :: rs.1, rs.2)
  end.

Definition get_data_points (σ : store) (selections : dict)
  : result (list loc * store) :=
  let data_points := lib_get_data_points σ selections in
  if contains selections "unit_id"
  then map_convert_unit data_points.2 data_points.1 (get selections "unit_id")
  else Ok data_points.

End GetDataPoints.

(** ** Resolving names to data series: [GroClient.find_data_series] *)

(** [l[:k]]: a negative bound counts from the end of the list. *)
Definition slice_to {A} (l : list A) (k : Z) : list A :=
  if (k <? 0)%Z then take (Z.to_nat (Z.of_nat (length l) + k)) l
  else take (Z.to_nat k) l.

(** [itertools.product], applied to the pools, by the definition the Python
    documentation gives for it: starting from [[[]]], every pool extends
    every partial tuple built so far,
    [result = [x+[y] for x in result for y in pool]]. *)
Definition product_step {A} (result : list (list A)) (pool : list A)
  : list (list A) :=
  result ≫= λ x, (λ y, x ++ [y]) <$> pool.

Definition product {A} (pools : list (list A)) : list (list A) :=
  fold_left product_step pools [[]].

(** [dict(pairs)]: a later pair overrides an earlier one with the same key. *)
Definition dict_of_pairs (pairs : list (string * pyval)) : dict :=
  fold_left (λ d kv, <[kv.1 := kv.2]> d) pairs ∅.

(** The calls made to the remote catalogue, in the order they are made.
    (Calls to the logger are left out.) *)
Inductive call : Type :=
| CSearch (entity_type : string) (search_terms : pyval)
| CGetDataSeries (selection : dict)
| CRankSeriesBySource (selections_list : list dict).

Section FindDataSeries.

(** [cfg.MAX_RESULT_COMBINATION_DEPTH] *)
Variable MAX_RESULT_COMBINATION_DEPTH : Z.

(** [self.search], [self.get_data_series], [self.rank_series_by_source],
    each a thin wrapper of the function of the same name in [lib]. *)
Variable search : string → pyval → list dict.
Variable get_data_series : dict → list dict.
Variable rank_series_by_source : list dict → list dict.

(** The local variables [search_results] and [keys], and the calls made
    so far. *)
Record search_state : Type := {
  search_results : list (list dict);
  keys : list string;
  calls : list call;
}.

(** One of the four blocks
    [if kwargs.get(role): search_results.append(self.search(ty, kwargs[role])[:K]);
     keys.append(key)]. *)
Definition search_role (kwargs : dict) (role entity_type key : string)
    (st : search_state) : search_state :=
  if truthy (get kwargs role) then
    {| search_results :=
         search_results st
         ++ [slice_to (search entity_type (get kwargs role))
                      MAX_RESULT_COMBINATION_DEPTH];
       keys := keys st ++ [key];
       calls := calls st ++ [CSearch entity_type (get kwargs role)] |}
  else st.

Definition search_phase (kwargs : dict) : search_state :=
  let st := {| search_results := []; keys := []; calls := [] |} in
  let st := search_role kwargs "item" "items" "item_id" st in
  let st := search_role kwargs "metric" "metrics" "metric_id" st in
  let st := search_role kwargs "region" "regions" "region_id" st in
  search_role kwargs "partner_region" "regions" "partner_region_id" st.

(** [dict(list(zip(keys, [entity['id'] for entity in comb])))]; search
    results carry an [id]. *)
Definition entities_of (keys : list string) (comb : list dict) : dict :=
  dict_of_pairs (zip keys ((λ entity, get entity "id") <$> comb)).

(** The inner loop: the time range of the query is written into every
    series found.  The series come new from the transport layer with
    every call, so writing into them is the same as building the stamped
    dictionary. *)
Definition stamp (kwargs : dict) (data_series : dict) : dict :=
  let data_series :=
    if truthy (get kwargs "start_date")
    then <["start_date" := get kwargs "start_date"]> data_series
    else data_series in
  if truthy (get kwargs "end_date")
  then <["end_date" := get kwargs "end_date"]> data_series
  else data_series.

(** One round of the loop over [itertools.product] of [search_results], on the
    pair of [all_data_series] and the calls made so far. *)
Definition combination_step (kwargs : dict) (keys : list string)
    (acc : list dict * list call) (comb : list dict) : list dict * list call :=
  let entities := entities_of keys comb in
  let data_series_list := get_data_series entities in
  (acc.1 ++ (stamp kwargs <$> data_series_list),
   acc.2 ++ [CGetDataSeries entities]).

(** The generator, run to its end: the series it yields, and the calls
    it has made. *)
Definition find_data_series (kwargs : dict) : list dict * list call :=
  let st := search_phase kwargs in
  let loop :=
    fold_left (combination_step kwargs (keys st))
              (product (search_results st)) ([], calls st) in
  let all_data_series := loop.1 in
  (rank_series_by_source all_data_series,
   loop.2 ++ [CRankSeriesBySource all_data_series]).

End FindDataSeries.

(** The selections [get_data_series] was called with, in call order. *)
Definition selections_tried (tr : list call) : list dict :=
  omap (λ c, match c with CGetDataSeries sel => Some sel | _ => None end) tr.

Definition is_search (c : call) : bool :=
  match c with CSearch _ _ => true | _ => false end.

Definition is_get_data_series (c : call) : bool :=
  match c with CGetDataSeries _ => true | _ => false end.

(** The four roles of a query: keyword, entity type searched, and key of
    the id in a selection, in the order the code visits them. *)
Definition roles : list (string * string * string) :=
  [ ("item", "items", "item_id");
    ("metric", "metrics", "metric_id");
    ("region", "regions", "region_id");
    ("partner_region", "regions", "partner_region_id") ].

(** The roles for which the query gives a text. *)
Definition present_roles (kwargs : dict) : list (string * string * string) :=
  filter (λ r, truthy (get kwargs r.1.1) = true) roles.

Section Candidates.

Variable K : Z.
Variable search : string → pyval → list dict.

(** The candidates kept for a role. *)
Definition candidates (kwargs : dict) (r : string * string * string) : list dict :=
  slice_to (search r.1.2 (get kwargs r.1.1)) K.

End Candidates.

(** The order that varies the first role fastest: every pool is run
    through in full for each combination of the pools after it. *)
Definition product_first_fastest {A} (pools : list (list A)) : list (list A) :=
  foldr (λ pool result, result ≫= λ rest, (λ x, x :: rest) <$> pool) [[]] pools.

(** ** Source ranking: [rank_series_by_source] *)

Module SourceRanker.

(** Modelled from the spec: [lib.rank_series_by_source], to which
    [GroClient.rank_series_by_source] delegates, is not among the
    sources.  The selections are taken in the order given; each is
    ranked without its [source_id] and [source_name], and every source
    id the ranking returns gives one descriptor, in the order
    returned. *)
Definition strip_source (selection : dict) : dict :=
  delete "source_name" (delete "source_id" selection).

Section Rank.

(** The ranking endpoint: source ids, best first. *)
Variable rankSources : dict → list Z.

Definition rank_series_by_source (selections : list dict) : list dict :=
  selection ← selections;
  let query := strip_source selection in
  (λ source_id, <["source_id" := VInt source_id]> query) <$> rankSources query.

End Rank.

(** The selection [s] with its source set to [source_id] and without a
    source name. *)
Definition with_source (s : dict) (source_id : Z) : dict :=
  delete "source_name" (<["source_id" := VInt source_id]> s).

(** The selections of the test of the ranking, where every selection is
    ranked to the sources 11, 22 and 33. *)
Definition test_a : dict :=
  <[ "region_id" := VInt 13474 ]> (<[ "item_id" := VInt 3457 ]>
  (<[ "metric_id" := VInt 2540047 ]> (<[ "source_id" := VInt 123 ]>
  {[ "source_name" := VStr "dontcare" ]}))).
Definition test_b : dict :=
  <[ "item_id" := VInt 1457 ]> (<[ "region_id" := VInt 13474 ]>
  {[ "metric_id" := VInt 2540047 ]}).

End SourceRanker.

(** ** Descendant regions: [get_descendant_regions] *)

Module RegionTreeFilter.

(** An entity of the catalogue, as the region records of the tests have
    it ([contains_ids] is the field [contains]). *)
Record Entity : Type := {
  id : Z;
  name : string;
  contains_ids : list Z;
  belongsTo : list Z;
  historical : bool;
}.

(** A descendant in the output: the full entity, or its id alone. *)
Inductive descendant : Type :=
| Details (e : Entity)
| IdOnly (region_id : Z).

(** An id that does not resolve. *)
Inductive error : Type := NotFound (region_id : Z).

Section Filter.

(** The directory: the descendants of a region (of a level, when one
    is asked for), already expanded, and the lookup of one region;
    [None] is an id that does not resolve. *)
Variable listDescendants : Z → option Z → option (list Z).
Variable lookup : Z → option Entity.

(** The batch lookup of step 2, a mapping from id to entity: all ids
    resolve, or the first that does not is reported. *)
Fixpoint lookup_all (ids : list Z) : error + list (Z * Entity) :=
  match ids with
  | [] => inr []
  | i :: rest =>
      match lookup i with
      | None => inl (NotFound i)
      | Some e =>
          match lookup_all rest with
          | inl err => inl err
          | inr es => inr ((i, e) :: es)
          end
      end
  end.

(** Modelled from the spec: [lib.get_descendant_regions], to which
    [GroClient.get_descendant_regions] delegates, is not among the
    sources.  The raw descendant ids come from the directory; they are
    resolved when details are wanted or historical regions are to be
    dropped; a historical region is dropped when [include_historical]
    is false; the answer keeps the order of the directory and carries
    the full entity only when [include_details] is true. *)
Definition get_descendant_regions (region_id : Z) (descendant_level : option Z)
    (include_historical include_details : bool) : error + list descendant :=
  match listDescendants region_id descendant_level with
  | None => inl (NotFound region_id)
  | Some ids =>
      if include_details || negb include_historical then
        match lookup_all ids with
        | inl err => inl err
        | inr resolved =>
            let kept :=
              filter (λ ie, include_historical = true ∨ historical ie.2 = false)
                     resolved in
            inr ((λ ie, if include_details then Details ie.2 else IdOnly ie.1)
                   <$> kept)
        end
      else inr (IdOnly <$> ids)
  end.

End Filter.

(** The regions of the tests: region 3 contains the historical region 1
    and the region 2; region 4 contains region 3. *)
Definition region_1 : Entity :=
  {| id := 1; name := "region 1"; contains_ids := []; belongsTo := [3];
     historical := true |}.
Definition region_2 : Entity :=
  {| id := 2; name := "region 2"; contains_ids := []; belongsTo := [3];
     historical := false |}.
Definition region_3 : Entity :=
  {| id := 3; name := "parent"; contains_ids := [1; 2]; belongsTo := [4];
     historical := false |}.
Definition region_4 : Entity :=
  {| id := 4; name := "ancestor"; contains_ids := [3]; belongsTo := [];
     historical := false |}.

Definition LOOKUP_MAP (region_id : Z) : option Entity :=
  if (region_id =? 1)%Z then Some region_1
  else if (region_id =? 2)%Z then Some region_2
  else if (region_id =? 3)%Z then Some region_3
  else if (region_id =? 4)%Z then Some region_4
  else None.

(** The mocked answer of the directory: [{'data': {'3': [1, 2]}}]. *)
Definition mock_descendants (region_id : Z) (level : option Z) : option (list Z) :=
  if (region_id =? 3)%Z then Some [1; 2] else None.

End RegionTreeFilter.

(** ** Example catalogues *)

(** A small catalogue of units used in the examples: unit 10 is the base
    unit, unit 14 is a thousand of it, unit 36 is shifted by 273, unit 43
    has a conversion record without a factor, and unit 99 has no
    conversion record at all. *)
Definition demo_units (entity_type : string) (entity_id : pyval) : entity :=
  if bool_decide (entity_id = VInt 10) then
    {| baseConvFactor := Some {[ "factor" := VInt 1 ]} |}
  else if bool_decide (entity_id = VInt 14) then
    {| baseConvFactor := Some {[ "factor" := VInt 1000 ]} |}
  else if bool_decide (entity_id = VInt 36) then
    {| baseConvFactor := Some (<[ "offset" := VInt 273 ]> {[ "factor" := VInt 1 ]}) |}
  else if bool_decide (entity_id = VInt 43) then
    {| baseConvFactor := Some {[ "factor" := VNone ]} |}
  else {| baseConvFactor := None |}.

(** One data point, [{'value': 2, 'unit_id': 14, 'item_id': 274}], at
    location 0. *)
Definition demo_point (u : Z) : dict :=
  <[ "value" := VInt 2 ]> (<[ "unit_id" := VInt u ]> {[ "item_id" := VInt 274 ]}).
Definition demo_store (u : Z) : store := {[ 0%nat := demo_point u ]}.

(** Two items match every text, three metrics do, and no region does. *)
Definition demo_search (entity_type : string) (search_terms : pyval) : list dict :=
  if bool_decide (entity_type = "items") then
    [ {[ "id" := VInt 1 ]}; {[ "id" := VInt 2 ]} ]
  else if bool_decide (entity_type = "metrics") then
    [ {[ "id" := VInt 10 ]}; {[ "id" := VInt 20 ]}; {[ "id" := VInt 30 ]} ]
  else [].

(** Every selection has one series, at frequency 9. *)
Definition demo_get_data_series (selection : dict) : list dict :=
  [ <[ "frequency_id" := VInt 9 ]> selection ].

(** A ranking that keeps the series in the order given. *)
Definition demo_rank (selections_list : list dict) : list dict := selections_list.

Definition demo_find : dict → list dict * list call :=
  find_data_series 5 demo_search demo_get_data_series demo_rank.

Definition demo_query : dict :=
  <[ "item" := VStr "X" ]> {[ "metric" := VStr "Y" ]}.

(** ** Discovery shortcuts: [GroClient.search_for_entity] *)

Section SearchForEntity.

Variable search : string → pyval → list dict.

(** The loop returns from its first round: the id of the first result
    (search results carry an [id]), or [None] when there is no result. *)
Definition search_for_entity (entity_type : string) (keywords : pyval) : pyval :=
  match search entity_type keywords with
  | [] => VNone
  | result :: _ => get result "id"
  end.

End SearchForEntity.

(** ** What [find_data_series] asks for and ranks *)

Section SeriesOf.

Variable K : Z.
Variable search : string → pyval → list dict.
Variable get_data_series : dict → list dict.

(** The selections for which series are asked, and the series handed to
    the ranking, for a query. *)
Definition selections_of (kwargs : dict) : list dict :=
  entities_of (keys (search_phase K search kwargs))
    <$> product (search_results (search_phase K search kwargs)).

Definition series_of (kwargs : dict) : list dict :=
  selections_of kwargs ≫= λ sel, stamp kwargs <$> get_data_series sel.

End SeriesOf.

(** ** Exceptions of the surrounding code *)

(** The exceptions raised by the code around the conversion: a missing
    dictionary key, an index out of range, text that is not a number,
    a rejected command line argument, a method called on a value that
    does not have it, the plain [Exception] of
    [pick_random_data_series], and an exception of [convert_unit] passed
    on. *)
Inductive pyerror : Type :=
| KeyError (key : string)
| IndexError
| ValueError
| ArgumentTypeError
| NoSuchAttribute
| NoDataSeries
| Conversion (e : exn).

#[global] Instance sum_ret {E} : MRet (sum E) := λ A a, inr a.
#[global] Instance sum_bind {E} : MBind (sum E) := λ A B k r,
  match r with
  | inl e => inl e
  | inr a => k a
  end.

(** [l[i]] for an index that is not negative. *)
Definition index {A} (l : list A) (i : nat) : pyerror + A :=
  match l !! i with
  | Some x => inr x
  | None => inl IndexError
  end.

(** [d[k]] *)
Definition getitem (d : dict) (k : string) : pyerror + pyval :=
  match d !! k with
  | Some v => inr v
  | None => inl (KeyError k)
  end.

(** ** The analogous-years sample: [run_analogous_years.py] *)

Module AnalogousYears.

(** [v.lower()], for the comparison with the words of [str2bool]: the
    letters A to Z become small; no other character becomes a letter of
    one of these words.  [capitals] puts the letters a to z in capitals;
    it is used to state that their case does not matter. *)
Definition lower_char (c : Ascii.ascii) : Ascii.ascii :=
  let n := Ascii.N_of_ascii c in
  if (65 <=? n)%N && (n <=? 90)%N then Ascii.ascii_of_N (n + 32) else c.

Definition capital_char (c : Ascii.ascii) : Ascii.ascii :=
  let n := Ascii.N_of_ascii c in
  if (97 <=? n)%N && (n <=? 122)%N then Ascii.ascii_of_N (n - 32) else c.

Fixpoint lower (s : string) : string :=
  match s with
  | EmptyString => EmptyString
  | String c rest => String (lower_char c) (lower rest)
  end.

Fixpoint capitals (s : string) : string :=
  match s with
  | EmptyString => EmptyString
  | String c rest => String (capital_char c) (capitals rest)
  end.

Definition str2bool (v : pyval) : pyerror + bool :=
  match v with
  | VBool b => inr b
  | VStr s =>
      if bool_decide (lower s ∈ ["yes"; "true"; "t"; "y"]) then inr true
      else if bool_decide (lower s ∈ ["no"; "false"; "f"; "n"]) then inr false
      else inl ArgumentTypeError
  | VNone | VInt _ | VFloat _ => inl NoSuchAttribute
  end.

Definition list_length_validator (list1 list2 : list pyval) : pyerror + list pyval :=
  if bool_decide (length list1 ≠ length list2) then inl ArgumentTypeError
  else inr list2.

Section EntitiesList.

(** [client.lookup(entity_type, entity_value)]: [None] when the call
    returns, [Some e] when it raises [e]. *)
Variable lookup_raises : string → pyval → option pyerror.

(** The exception of the lookup is logged and raised again. *)
Definition check_if_exists (entity_type : string) (entity_value : pyval)
  : pyerror + pyval :=
  match lookup_raises entity_type entity_value with
  | None => inr entity_value
  | Some e => inl e
  end.

(** The dictionary literal of the loop. *)
Definition entity_of (metric_id item_id region_id source_id frequency_id : pyval)
  : dict :=
  <["metric_id" := metric_id]> (<["item_id" := item_id]>
  (<["region_id" := region_id]> (<["source_id" := source_id]>
  {["frequency_id" := frequency_id]}))).

(** The dictionary of round [i] of the loop; its values are computed in
    the order they are written. *)
Definition entity_at (region_id_list item_id_list metric_id_list source_id_list
    frequency_id_list : list pyval) (i : nat) : pyerror + dict :=
  m ← index metric_id_list i;
  metric_id ← check_if_exists "metrics" m;
  it ← index item_id_list i;
  item_id ← check_if_exists "items" it;
  r ← index region_id_list 0;
  region_id ← check_if_exists "regions" r;
  s ← index source_id_list i;
  source_id ← check_if_exists "sources" s;
  f ← index frequency_id_list i;
  frequency_id ← check_if_exists "frequencies" f;
  mret (entity_of metric_id item_id region_id source_id frequency_id).

Definition entities_list (region_id_list item_id_list metric_id_list
    source_id_list frequency_id_list : list pyval) : pyerror + list dict :=
  item_id_list ← list_length_validator metric_id_list item_id_list;
  source_id_list ← list_length_validator metric_id_list source_id_list;
  frequency_id_list ← list_length_validator metric_id_list frequency_id_list;
  mapM (entity_at region_id_list item_id_list metric_id_list source_id_list
          frequency_id_list)
       (seq 0 (length metric_id_list)).

End EntitiesList.

End AnalogousYears.

(** ** Names and random picks: [get_names_for_selection],
    [pick_random_data_series] *)

Definition ENTITY_KEY_TO_TYPE : gmap string string :=
  list_to_map [ ("item_id", "items"); ("metric_id", "metrics");
                ("region_id", "regions"); ("partner_region_id", "regions");
                ("source_id", "sources"); ("frequency_id", "frequencies") ].

(** [s.split('_')[0]]: what stands before the first underscore. *)
Fixpoint before_underscore (s : string) : string :=
  match s with
  | EmptyString => EmptyString
  | String c rest =>
      if bool_decide (String c EmptyString = "_") then EmptyString
      else String c (before_underscore rest)
  end.

(** [int(x)] for a number that is not negative: the fraction is cut
    off. *)
Definition int_of (q : Qc) : Z := (Qnum q / Zpos (Qden q))%Z.

Section Names.

(** [self.lookup(entity_type, entity_id)], as a dictionary. *)
Variable lookup : string → pyval → dict.
Variable get_data_series : dict → list dict.

(** One element of the list comprehension, for the item
    [(entity_key, entity_id)] of the selection. *)
Definition name_of (item : string * pyval) : pyerror + (string * pyval) :=
  match ENTITY_KEY_TO_TYPE !! item.1 with
  | None => inl (KeyError item.1)
  | Some entity_type =>
      name ← getitem (lookup entity_type item.2) "name";
      mret (before_underscore item.1, name)
  end.

(** The selection is given by its items, in the order the dictionary
    yields them. *)
Definition get_names_for_selection (selection : list (string * pyval))
  : pyerror + list (string * pyval) :=
  mapM name_of selection.

(** [random] is the number drawn by [random()]. *)
Definition pick_random_data_series (random : Qc) (selected_entities : dict)
  : pyerror + dict :=
  let data_series_list := get_data_series selected_entities in
  if bool_decide (data_series_list = []) then inl NoDataSeries
  else
    index data_series_list
      (Z.to_nat (int_of (Qc_of_Z (Z.of_nat (length data_series_list)) * random)%Qc)).

End Names.

(** ** The saved series of the client: [add_single_data_series],
    [add_points_to_df], [get_df], [GDH] *)

(** [s.split('-')]: the pieces between the dashes; there is always at
    least one piece. *)
Fixpoint split_dash (s : string) : list string :=
  match s with
  | EmptyString => [EmptyString]
  | String c rest =>
      if bool_decide (String c EmptyString = "-") then EmptyString :: split_dash rest
      else
        match split_dash rest with
        | [] => [String c EmptyString]
        | piece :: pieces => String c piece :: pieces
        end
  end.

(** The list [entity_keys] of [GDH]. *)
Definition entity_keys : list string :=
  ["metric_id"; "item_id"; "region_id"; "partner_region_id"; "source_id";
   "frequency_id"].

Section SavedSeries.

(** The data frames of pandas and the operations on them that the client
    uses: [pandas.DataFrame(data=points)], [df.empty], [df[col] = v],
    [col in df.columns], [df.col = pandas.to_datetime(df.col)] and
    [df.merge(tmp, how='outer')].  They are taken to return. *)
Variable frame : Type.
Variable DataFrame : list dict → frame.
Variable empty : frame → bool.
Variable set_column : frame → string → pyval → frame.
Variable has_column : frame → string → bool.
Variable to_datetime : frame → string → frame.
Variable merge_outer : frame → frame → frame.

(** [int(x)] for a text [x]; [None] when it raises [ValueError]. *)
Variable py_int : string → option Z.

Variable lookup : string → pyval → entity.
Variable lib_get_data_points : store → dict → list loc * store.

(** The fields of the client that hold the saved series. *)
Record client : Type := {
  _data_series_list : list loc;
  _data_series_queue : list loc;
  _data_frame : frame;
}.

Definition add_single_data_series (c : client) (data_series : loc) : client :=
  {| _data_series_list := _data_series_list c ++ [data_series];
     _data_series_queue := _data_series_queue c ++ [data_series];
     _data_frame := _data_frame c |}.

Definition datetime_column (tmp : frame) (column : string) : frame :=
  if has_column tmp column then to_datetime tmp column else tmp.

(** The frame returned by [set_index] is dropped, so that call leaves
    nothing behind. *)
Definition add_points_to_df (c : client) (data_series : dict)
    (data_points : list dict) : pyerror + client :=
  let tmp := DataFrame data_points in
  if empty tmp then inr c
  else
    source_id ← getitem data_series "source_id";
    let tmp := set_column tmp "source_id" source_id in
    let tmp := datetime_column tmp "end_date" in
    let tmp := datetime_column tmp "start_date" in
    let tmp := datetime_column tmp "reporting_date" in
    if empty (_data_frame c) then
      inr {| _data_series_list := _data_series_list c;
             _data_series_queue := _data_series_queue c;
             _data_frame := tmp |}
    else
      inr {| _data_series_list := _data_series_list c;
             _data_series_queue := _data_series_queue c;
             _data_frame := merge_outer (_data_frame c) tmp |}.

(** Where a call stands when it returns or raises: the client, the
    store, the series taken from the queue so far, in the order taken,
    and the exception, if any. *)
Record outcome : Type := {
  out_client : client;
  out_store : store;
  out_taken : list loc;
  out_error : option pyerror;
}.

(** The loop [while self._data_series_queue] of [get_df]; [pending] is
    the queue from its end, so that its head is what [pop()] returns. *)
Fixpoint get_df_loop (show_revisions : bool) (pending : list loc)
    (c : client) (σ : store) (taken : list loc) : outcome :=
  match pending with
  | [] => {| out_client := c; out_store := σ; out_taken := taken;
             out_error := None |}
  | data_series :: rest =>
      let c := {| _data_series_list := _data_series_list c;
                  _data_series_queue := reverse rest;
                  _data_frame := _data_frame c |} in
      let σ := if show_revisions
               then setitem σ data_series "show_revisions" (VBool true)
               else σ in
      let taken := taken ++ [data_series] in
      match get_data_points lookup lib_get_data_points σ (deref σ data_series) with
      | Raise e =>
          {| out_client := c; out_store := σ; out_taken := taken;
             out_error := Some (Conversion e) |}
      | Ok (data_points, σ') =>
          match add_points_to_df c (deref σ' data_series)
                                 (deref σ' <$> data_points) with
          | inl e =>
              {| out_client := c; out_store := σ'; out_taken := taken;
                 out_error := Some e |}
          | inr c' => get_df_loop show_revisions rest c' σ' taken
          end
      end
  end.

(** [get_df]; what it returns is the frame of the client in the
    outcome. *)
Definition get_df (show_revisions : bool) (c : client) (σ : store) : outcome :=
  get_df_loop show_revisions (reverse (_data_series_queue c)) c σ [].

(** The selection that [GDH] builds from its text and its keyword
    arguments, given as items in their order. *)
Definition GDH_selection (gdh_selection : string)
    (optional_selections : list (string * pyval)) : pyerror + dict :=
  entity_ids ← mapM (λ x, match py_int x with
                          | Some z => inr (VInt z)
                          | None => inl ValueError
                          end) (split_dash gdh_selection);
  let selection := dict_of_pairs (zip entity_keys entity_ids) in
  mret (fold_left (λ selection kv,
                     if bool_decide (kv.1 ∉ entity_keys)
                     then <[kv.1 := kv.2]> selection
                     else selection)
                  optional_selections selection).

(** [GDH]: the selection is a new object of the store. *)
Definition GDH (gdh_selection : string)
    (optional_selections : list (string * pyval))
    (c : client) (σ : store) : outcome :=
  match GDH_selection gdh_selection optional_selections with
  | inl e => {| out_client := c; out_store := σ; out_taken := [];
                out_error := Some e |}
  | inr selection =>
      let data_series := fresh (dom σ) in
      get_df false (add_single_data_series c data_series)
             (<[data_series := selection]> σ)
  end.

End SavedSeries.

(** ** Objects of the store during a fetch *)

Section Objects.

Variable lib_get_data_points : store → dict → list loc * store.

(** The transport layer leaves alone the objects that are there. *)
Definition keeps_objects : Prop :=
  ∀ σ selections q,
    deref σ q ≠ ∅ →
    deref (lib_get_data_points σ selections).2 q = deref σ q.

End Objects.

(** The series is marked for revisions. *)
Definition revisions_shown (σ : store) (data_series : loc) : Prop :=
  deref σ data_series !! "show_revisions" = Some (VBool true).

(** ** Example frames, transport and queries *)

(** Frames as lists of rows. *)
Definition demo_empty (f : list dict) : bool := bool_decide (f = []).
Definition demo_set_column (f : list dict) (column : string) (v : pyval) : list dict :=
  (λ row, <[column := v]> row) <$> f.
Definition demo_has_column (f : list dict) (column : string) : bool :=
  bool_decide (Exists (λ row, is_Some (row !! column)) f).
Definition demo_to_datetime (f : list dict) (column : string) : list dict := f.

(** Texts of decimal digits. *)
Definition digit_value (c : Ascii.ascii) : option Z :=
  let n := Ascii.N_of_ascii c in
  if (48 <=? n)%N && (n <=? 57)%N then Some (Z.of_N (n - 48)) else None.

Fixpoint digits_value (s : string) (acc : Z) : option Z :=
  match s with
  | EmptyString => Some acc
  | String c rest =>
      match digit_value c with
      | Some d => digits_value rest (10 * acc + d)
      | None => None
      end
  end.

Definition demo_int (s : string) : option Z :=
  if bool_decide (s = "") then None else digits_value s 0.

(** A transport that answers every selection with one new point, which
    has a value and no unit. *)
Definition demo_get_data_points (σ : store) (selections : dict) : list loc * store :=
  let p := fresh (dom σ) in ([p], <[p := {[ "value" := VInt 2 ]}]> σ).

Definition demo_client (queue : list loc) : client (list dict) :=
  {| _data_series_list := queue; _data_series_queue := queue; _data_frame := [] |}.

Definition demo_get_df : bool → client (list dict) → store → outcome (list dict) :=
  get_df (list dict) (λ points, points) demo_empty demo_set_column
    demo_has_column demo_to_datetime (λ f tmp, f ++ tmp) demo_units
    demo_get_data_points.

Definition demo_GDH
  : string → list (string * pyval) → client (list dict) → store → outcome (list dict) :=
  GDH (list dict) (λ points, points) demo_empty demo_set_column
    demo_has_column demo_to_datetime (λ f tmp, f ++ tmp) demo_int demo_units
    demo_get_data_points.

(** Two saved series: the first has a source, the second has none. *)
Definition demo_series_store : store :=
  <[ 0%nat := <[ "metric_id" := VInt 860032 ]> {[ "source_id" := VInt 2 ]} ]>
  {[ 1%nat := {[ "metric_id" := VInt 860032 ]} ]}.

(** A query for an item and a region, with a start date. *)
Definition demo_region_query : dict :=
  <[ "item" := VStr "X" ]> (<[ "region" := VStr "Z" ]>
  {[ "start_date" := VStr "2017-01-01" ]}).

Definition demo_dated_query : dict :=
  <[ "item" := VStr "X" ]> {[ "start_date" := VStr "2017-01-01" ]}.

(** A catalogue in which every id exists, and entities named after
    their type. *)
Definition demo_lookup_raises (entity_type : string) (entity_value : pyval)
  : option pyerror := None.
Definition demo_lookup_dict (entity_type : string) (entity_id : pyval) : dict :=
  {[ "name" := VStr entity_type ]}.

(** * Properties *)

(** Unfolds the sequencing of the [result] monad. *)
Ltac unfold_bind := unfold mbind, result_bind, mret, result_ret in *.

(** ** Python values *)

Lemma py_eq_refl (v : pyval) : py_eq v v = true.
Proof.
  unfold py_eq. destruct (to_num v); by rewrite bool_decide_eq_true.
Qed.

Lemma py_eq_sym (a b : pyval) : py_eq a b = py_eq b a.
Proof.
  unfold py_eq. destruct (to_num a), (to_num b); try done;
    apply bool_decide_ext; split; congruence.
Qed.

Lemma Qc_of_Z_nonzero (z : Z) : z ≠ 0 → Qc_of_Z z ≠ 0%Qc.
Proof.
  intros Hz Heq. apply Hz.
  apply (f_equal this) in Heq. simpl in Heq.
  by injection Heq.
Qed.

Lemma Qc_of_Z_zero_inv (z : Z) : Qc_of_Z z = 0%Qc → z = 0.
Proof.
  intros Heq. destruct (decide (z = 0)) as [|Hz]; [done|].
  by destruct (Qc_of_Z_nonzero z Hz).
Qed.

(** A number is truthy exactly when it is not zero. *)
Lemma truthy_num (v : pyval) (q : Qc) :
  to_num v = Some q → truthy v = negb (bool_decide (q = 0%Qc)).
Proof.
  assert (Hz : ∀ z, negb (z =? 0)%Z = negb (bool_decide (Qc_of_Z z = 0%Qc))).
  { intros z. f_equal. destruct (Z.eqb_spec z 0) as [->|Hz].
    - rewrite bool_decide_eq_true_2; [done|]. by apply Qc_is_canon.
    - rewrite bool_decide_eq_false_2; [done|]. by apply Qc_of_Z_nonzero. }
  destruct v as [|[]|z|q'|s]; simpl; intros Hq; simplify_eq; done.
Qed.

(** ** The store *)

Lemma deref_setitem (σ : store) (p q : loc) (k : string) (v : pyval) :
  deref (setitem σ p k v) q
  = if decide (q = p) then <[k := v]> (deref σ p) else deref σ q.
Proof.
  unfold setitem, deref at 1. case_decide as Hq.
  - subst q. by rewrite lookup_insert_eq.
  - by rewrite lookup_insert_ne.
Qed.

Lemma deref_setitem_eq (σ : store) (p : loc) (k : string) (v : pyval) :
  deref (setitem σ p k v) p = <[k := v]> (deref σ p).
Proof. rewrite deref_setitem. by case_decide. Qed.

Lemma deref_setitem_ne (σ : store) (p q : loc) (k : string) (v : pyval) :
  q ≠ p → deref (setitem σ p k v) q = deref σ q.
Proof. intros. rewrite deref_setitem. by case_decide. Qed.

Lemma get_insert_eq (d : dict) (k : string) (v : pyval) : get (<[k := v]> d) k = v.
Proof. unfold get. by rewrite lookup_insert_eq. Qed.

Lemma get_insert_ne (d : dict) (k k' : string) (v : pyval) :
  k ≠ k' → get (<[k := v]> d) k' = get d k'.
Proof. intros. unfold get. by rewrite lookup_insert_ne. Qed.

(** ** [convert_unit] on the contents of the point *)

Section ConvertUnitFacts.

Variable lookup : string → pyval → entity.

Lemma convert_unit_ok (σ : store) (p : loc) (t : pyval) (d' : dict) :
  convert_dict lookup (deref σ p) t = Ok d' →
  ∃ σ', convert_unit lookup σ p t = Ok (p, σ') ∧ updated σ σ' p d'.
Proof.
  unfold convert_dict, convert_unit, mbind, result_bind. cbv zeta.
  destruct (is_none _ || py_eq _ _).
  { intros [= <-]. exists σ. split; [done|]. intros q. by case_decide; subst. }
  destruct (opt_get _ "factor") as [ff|]; simpl; [|done].
  destruct (truthy ff); simpl; [|done].
  destruct (opt_get _ "factor") as [tf|]; simpl; [|done].
  destruct (truthy tf); simpl; [|done].
  destruct (is_none (get (deref σ p) "value")); simpl.
  - intros [= <-]. eexists. split; [done|]. intros q.
    rewrite deref_setitem. by case_decide.
  - destruct (converted_value _ _ _) as [r|]; simpl; [|done].
    intros [= <-]. eexists. split; [done|]. intros q.
    rewrite deref_setitem, deref_setitem_eq.
    case_decide; [done|]. by rewrite deref_setitem_ne.
Qed.

Lemma convert_unit_raise (σ : store) (p : loc) (t : pyval) (e : exn) :
  convert_dict lookup (deref σ p) t = Raise e → convert_unit lookup σ p t = Raise e.
Proof.
  unfold convert_dict, convert_unit, mbind, result_bind. cbv zeta.
  destruct (is_none _ || py_eq _ _); [done|].
  destruct (opt_get _ "factor") as [ff|]; simpl; [|congruence].
  destruct (truthy ff); simpl; [|congruence].
  destruct (opt_get _ "factor") as [tf|]; simpl; [|congruence].
  destruct (truthy tf); simpl; [|congruence].
  destruct (is_none (get (deref σ p) "value")); simpl; [done|].
  destruct (converted_value _ _ _) as [r|]; simpl; congruence.
Qed.

Lemma convert_unit_inv (σ σ' : store) (p p' : loc) (t : pyval) :
  convert_unit lookup σ p t = Ok (p', σ') →
  p' = p ∧ ∃ d', convert_dict lookup (deref σ p) t = Ok d' ∧ updated σ σ' p d'.
Proof.
  intros Hc. destruct (convert_dict lookup (deref σ p) t) as [d'|e] eqn:Hd.
  - destruct (convert_unit_ok _ _ _ _ Hd) as (σ'' & Hc' & Hu).
    rewrite Hc in Hc'. injection Hc' as -> ->. eauto.
  - apply convert_unit_raise in Hd. congruence.
Qed.

End ConvertUnitFacts.

(** ** Unit conversion: identity, failure, frame and round trip *)

Section ConvertUnitClaims.

Variable lookup : string → pyval → entity.

(** C6. [convert_unit(P, P.unit_id)] returns the point [P] and leaves the
    store as it is, whatever the value of [P] (null included); the same
    holds for any target when [P.unit_id] is null or missing. *)
Theorem convert_unit_identity (σ : store) (p : loc) (t : pyval) :
  get (deref σ p) "unit_id" = VNone ∨ get (deref σ p) "unit_id" = t →
  convert_unit lookup σ p t = Ok (p, σ).
Proof.
  intros Hu. unfold convert_unit. cbv zeta.
  destruct Hu as [-> | ->]; [done|].
  by rewrite py_eq_refl, orb_true_r.
Qed.

(** X3. When the conversion record of the point's unit is there but its
    factor is absent, null or zero, the call raises the exception that
    names the point's unit. *)
Lemma convert_unit_from_not_convertible (σ : store) (p : loc) (t : pyval) (cf : dict) :
  let u := get (deref σ p) "unit_id" in
  u ≠ VNone → py_eq u t = false →
  baseConvFactor (lookup "units" u) = Some cf →
  truthy (get cf "factor") = false →
  convert_unit lookup σ p t = Raise (NotConvertible u).
Proof.
  intros u Hu Hne Hcf Hf. unfold convert_unit. cbv zeta. fold u.
  replace (is_none u) with false by by destruct u.
  rewrite Hne, Hcf. simpl. unfold_bind. by rewrite Hf.
Qed.

(** X4. When the point's unit is convertible and the target's conversion
    record has no usable factor, the exception names the target unit. *)
Lemma convert_unit_to_not_convertible (σ : store) (p : loc) (t : pyval) (cf cft : dict) :
  let u := get (deref σ p) "unit_id" in
  u ≠ VNone → py_eq u t = false →
  baseConvFactor (lookup "units" u) = Some cf →
  truthy (get cf "factor") = true →
  baseConvFactor (lookup "units" t) = Some cft →
  truthy (get cft "factor") = false →
  convert_unit lookup σ p t = Raise (NotConvertible t).
Proof.
  intros u Hu Hne Hcf Hf Hcft Hft. unfold convert_unit. cbv zeta. fold u.
  replace (is_none u) with false by by destruct u.
  rewrite Hne, Hcf, Hcft. simpl. unfold_bind. by rewrite Hf, Hft.
Qed.

(** Whenever one of the two units lacks a conversion record or a usable
    factor, the call raises: no point is returned and the store is not
    written. *)
Lemma convert_unit_not_convertible_raises (σ : store) (p : loc) (t : pyval) :
  let u := get (deref σ p) "unit_id" in
  u ≠ VNone → py_eq u t = false →
  (∀ cf, baseConvFactor (lookup "units" u) = Some cf → truthy (get cf "factor") = false) ∨
  (∀ cf, baseConvFactor (lookup "units" t) = Some cf → truthy (get cf "factor") = false) →
  ∃ e, convert_unit lookup σ p t = Raise e ∧ e ≠ TypeError.
Proof.
  intros u Hu Hne Hbad. unfold convert_unit. cbv zeta. fold u.
  replace (is_none u) with false by by destruct u.
  rewrite Hne. simpl. unfold_bind.
  destruct (baseConvFactor (lookup "units" u)) as [cf|] eqn:Hcf; simpl;
    [|by eexists].
  destruct (truthy (get cf "factor")) eqn:Hf; simpl; [|by eexists].
  destruct Hbad as [Hbad|Hbad]; [by rewrite (Hbad cf) in Hf|].
  destruct (baseConvFactor (lookup "units" t)) as [cft|] eqn:Hcft; simpl;
    [|by eexists].
  rewrite (Hbad cft); [|done]. by eexists.
Qed.

(** C4. [convert_unit] writes into the point it is given and returns
    that same object.  After a successful call no other object of the
    store has changed, and in the point itself only the fields [value]
    and [unit_id] can differ from before; on the converting path
    [unit_id] is the target, also when the value is null, in which case
    the value is left alone. *)
Theorem convert_unit_frame (σ σ' : store) (p p' : loc) (t : pyval) :
  convert_unit lookup σ p t = Ok (p', σ') →
  p' = p
  ∧ (∀ q, q ≠ p → deref σ' q = deref σ q)
  ∧ (∀ k, k ≠ "value" → k ≠ "unit_id" → deref σ' p !! k = deref σ p !! k)
  ∧ (get (deref σ p) "unit_id" ≠ VNone →
     py_eq (get (deref σ p) "unit_id") t = false →
     get (deref σ' p) "unit_id" = t
     ∧ (get (deref σ p) "value" = VNone →
        deref σ' p !! "value" = deref σ p !! "value")).
Proof.
  intros Hc. apply convert_unit_inv in Hc as (-> & d' & Hd & Hu).
  split; [done|]. split.
  { intros q Hq. rewrite Hu. by case_decide. }
  assert (deref σ' p = d') as -> by (rewrite Hu; by case_decide).
  revert Hd. unfold convert_dict. cbv zeta. unfold_bind.
  destruct (is_none _ || py_eq _ _) eqn:Hearly.
  { intros [= <-]. split; [done|]. intros Hn He.
    apply orb_true_iff in Hearly as [Hi|Hi]; [|congruence].
    by destruct (get (deref σ p) "unit_id"). }
  destruct (opt_get _ "factor") as [ff|]; simpl; [|done].
  destruct (truthy ff); simpl; [|done].
  destruct (opt_get _ "factor") as [tf|]; simpl; [|done].
  destruct (truthy tf); simpl; [|done].
  destruct (is_none (get (deref σ p) "value")) eqn:Hv; simpl.
  - intros [= <-]. split.
    + intros k _ Hk. by rewrite lookup_insert_ne.
    + intros _ _. split; [apply get_insert_eq|].
      intros _. by rewrite lookup_insert_ne.
  - destruct (converted_value _ _ _) as [r|]; simpl; [|done].
    intros [= <-]. split.
    + intros k Hk1 Hk2. by rewrite !lookup_insert_ne.
    + intros _ _. split; [apply get_insert_eq|].
      intros Hnone. by rewrite Hnone in Hv.
Qed.

End ConvertUnitClaims.

Section RoundTrip.

Variable lookup : string → pyval → entity.

Lemma convert_dict_convertible (d : dict) (a b : pyval) (x fa oa fb ob : Qc) :
  get d "unit_id" = a → a ≠ VNone → py_eq a b = false →
  to_num (get d "value") = Some x →
  convertible lookup a fa oa → convertible lookup b fb ob →
  convert_dict lookup d b
  = Ok (<["unit_id" := b]>
          (<["value" := VFloat (((x * fa + oa) - ob) / fb)%Qc]> d)).
Proof.
  intros Hu Ha Hne Hx (cfa & Hcfa & Hfa & Hfa0 & Hoa) (cfb & Hcfb & Hfb & Hfb0 & Hob).
  unfold convert_dict. cbv zeta. rewrite Hu.
  replace (is_none a) with false by by destruct a.
  rewrite Hne, Hcfa, Hcfb. simpl. unfold_bind.
  rewrite (truthy_num _ _ Hfa), (truthy_num _ _ Hfb).
  rewrite !bool_decide_eq_false_2 by done. simpl.
  replace (is_none (get d "value")) with false
    by (destruct (get d "value"); simpl in *; congruence).
  simpl. unfold converted_value, num. unfold_bind.
  by rewrite Hx, Hfa, Hoa, Hob, Hfb.
Qed.

Lemma round_trip_arith (x fa oa fb ob : Qc) :
  fa ≠ 0%Qc → fb ≠ 0%Qc →
  ((((x * fa + oa - ob) / fb) * fb + ob - oa) / fa)%Qc = x.
Proof. intros Ha Hb. field. done. Qed.

(** C5. Over exact rational arithmetic, converting a point with a
    numeric value from unit [a] to a convertible unit [b] and back to [a]
    succeeds twice, and the value after the second conversion is the
    original value. *)
Theorem convert_unit_round_trip (σ : store) (p : loc) (a b : Z)
    (x fa oa fb ob : Qc) :
  get (deref σ p) "unit_id" = VInt a →
  to_num (get (deref σ p) "value") = Some x →
  convertible lookup (VInt a) fa oa →
  convertible lookup (VInt b) fb ob →
  ∃ σ1 σ2,
    convert_unit lookup σ p (VInt b) = Ok (p, σ1)
    ∧ convert_unit lookup σ1 p (VInt a) = Ok (p, σ2)
    ∧ to_num (get (deref σ2 p) "value") = Some x.
Proof.
  intros Hu Hx Ha Hb.
  destruct (py_eq (VInt a) (VInt b)) eqn:Hab.
  - (* the two ids are equal: both calls return the point as it is *)
    assert (Hid : ∀ t, py_eq (VInt a) t = true →
                       convert_unit lookup σ p t = Ok (p, σ)).
    { intros t Ht. unfold convert_unit. cbv zeta.
      by rewrite Hu, Ht, orb_true_r. }
    exists σ, σ. split; [by apply Hid|]. split; [|done].
    apply Hid, py_eq_refl.
  - pose proof (convert_dict_convertible _ _ _ _ _ _ _ _ Hu
                  ltac:(done) Hab Hx Ha Hb) as H1.
    destruct (convert_unit_ok _ _ _ _ _ H1) as (σ1 & Hc1 & Hu1).
    pose proof (Hu1 p) as Hp1. rewrite decide_True in Hp1 by done.
    assert (H2 := convert_dict_convertible (deref σ1 p) (VInt b) (VInt a)
                    (((x * fa + oa) - ob) / fb)%Qc fb ob fa oa).
    rewrite Hp1 in H2. rewrite get_insert_eq in H2.
    rewrite get_insert_ne, get_insert_eq in H2 by done.
    rewrite py_eq_sym in Hab.
    specialize (H2 eq_refl ltac:(done) Hab eq_refl Hb Ha).
    rewrite <- Hp1 in H2.
    destruct (convert_unit_ok _ _ _ _ _ H2) as (σ2 & Hc2 & Hu2).
    exists σ1, σ2. split; [done|]. split; [done|].
    rewrite (Hu2 p), decide_True by done.
    rewrite get_insert_ne, get_insert_eq by done. simpl. f_equal.
    destruct Ha as (_ & _ & _ & Hfa & _), Hb as (_ & _ & _ & Hfb & _).
    by apply round_trip_arith.
Qed.

End RoundTrip.

(** ** Unit conversion on the example catalogue *)

(** The identity at a concrete point: unit 14 to unit 14. *)
Lemma convert_unit_identity_witness :
  get (deref (demo_store 14) 0%nat) "unit_id" = VInt 14
  ∧ convert_unit demo_units (demo_store 14) 0%nat (VInt 14)
    = Ok (0%nat, demo_store 14).
Proof.
  split; [reflexivity|].
  apply (convert_unit_identity demo_units (demo_store 14) 0%nat (VInt 14)).
  right. reflexivity.
Defined.

(** C3. A unit without any conversion record (unit 99 of the example
    catalogue) makes [convert_unit] stop with the attribute error of
    [None.get], which names no unit, on the source side as well as on the
    target side; a unit whose record lacks the factor (unit 43) is
    reported by the exception that names it. *)
Theorem convert_unit_missing_record :
  convert_unit demo_units (demo_store 99) 0%nat (VInt 10) = Raise AttributeError
  ∧ convert_unit demo_units (demo_store 10) 0%nat (VInt 99) = Raise AttributeError
  ∧ convert_unit demo_units (demo_store 43) 0%nat (VInt 10)
    = Raise (NotConvertible (VInt 43))
  ∧ convert_unit demo_units (demo_store 10) 0%nat (VInt 43)
    = Raise (NotConvertible (VInt 43)).
Proof. repeat split; vm_compute; reflexivity. Qed.

(** C4, as stated, fails: converting the example point from unit 14 to unit
    10 succeeds and the object that was passed in is no longer what it
    was. *)
Lemma convert_unit_mutates_input :
  ∃ σ', convert_unit demo_units (demo_store 14) 0%nat (VInt 10) = Ok (0%nat, σ')
        ∧ get (deref (demo_store 14) 0%nat) "unit_id" = VInt 14
        ∧ get (deref σ' 0%nat) "unit_id" = VInt 10
        ∧ deref σ' 0%nat ≠ deref (demo_store 14) 0%nat.
Proof.
  eexists. split; [reflexivity|]. split; [reflexivity|].
  split; [reflexivity|].
  intros Heq. apply (f_equal (λ d : dict, get d "unit_id")) in Heq.
  vm_compute in Heq. discriminate.
Qed.

Lemma convert_unit_frame_witness :
  ∃ σ', convert_unit demo_units (demo_store 14) 0%nat (VInt 10) = Ok (0%nat, σ')
        ∧ deref σ' 0%nat !! "item_id" = Some (VInt 274)
        ∧ get (deref σ' 0%nat) "unit_id" = VInt 10.
Proof.
  eexists. split; [reflexivity|].
  destruct (convert_unit_frame demo_units (demo_store 14) _ 0%nat 0%nat (VInt 10)
              eq_refl) as (_ & _ & Hk & Hu).
  split.
  - rewrite (Hk "item_id"); [reflexivity|discriminate|discriminate].
  - apply Hu; [discriminate|reflexivity].
Defined.

Lemma demo_convertible_14 :
  convertible demo_units (VInt 14) (Qc_of_Z 1000) (Qc_of_Z 0).
Proof.
  eexists. split; [reflexivity|]. split; [reflexivity|].
  split; [|reflexivity]. by apply Qc_of_Z_nonzero.
Defined.

Lemma demo_convertible_36 :
  convertible demo_units (VInt 36) (Qc_of_Z 1) (Qc_of_Z 273).
Proof.
  eexists. split; [reflexivity|]. split; [reflexivity|].
  split; [|reflexivity]. by apply Qc_of_Z_nonzero.
Defined.

(** The round trip at a concrete point: value 2 in unit 14, to unit 36 and
    back. *)
Lemma convert_unit_round_trip_witness :
  ∃ σ1 σ2,
    convert_unit demo_units (demo_store 14) 0%nat (VInt 36) = Ok (0%nat, σ1)
    ∧ convert_unit demo_units σ1 0%nat (VInt 14) = Ok (0%nat, σ2)
    ∧ to_num (get (deref σ2 0%nat) "value") = Some (Qc_of_Z 2).
Proof.
  apply (convert_unit_round_trip demo_units (demo_store 14) 0%nat 14 36
           (Qc_of_Z 2) (Qc_of_Z 1000) (Qc_of_Z 0) (Qc_of_Z 1) (Qc_of_Z 273)).
  - reflexivity.
  - reflexivity.
  - exact demo_convertible_14.
  - exact demo_convertible_36.
Defined.

(** ** Conversion of the retrieved points *)

Section GetDataPointsClaims.

Variable lookup : string → pyval → entity.
Variable lib_get_data_points : store → dict → list loc * store.

(** A converted point is left alone by a second conversion to the same
    target. *)
Lemma convert_dict_idem (d d' : dict) (t : pyval) :
  convert_dict lookup d t = Ok d' → convert_dict lookup d' t = Ok d'.
Proof.
  unfold convert_dict at 1. cbv zeta. unfold_bind.
  destruct (is_none _ || py_eq _ _) eqn:Hearly.
  { intros [= <-]. unfold convert_dict. by rewrite Hearly. }
  intros Hd.
  assert (Ht : get d' "unit_id" = t).
  { revert Hd.
    destruct (opt_get _ "factor") as [ff|]; simpl; [|done].
    destruct (truthy ff); simpl; [|done].
    destruct (opt_get _ "factor") as [tf|]; simpl; [|done].
    destruct (truthy tf); simpl; [|done].
    destruct (if negb _ then _ else _) as [d1|]; [|done].
    intros [= <-]. apply get_insert_eq. }
  unfold convert_dict. by rewrite Ht, py_eq_refl, orb_true_r.
Qed.

Lemma map_convert_unit_ok (t : pyval) (pts out : list loc) (σ σ' : store) :
  map_convert_unit lookup σ pts t = Ok (out, σ') →
  out = pts
  ∧ (∀ q, q ∉ pts → deref σ' q = deref σ q)
  ∧ (∀ p, p ∈ pts → convert_dict lookup (deref σ p) t = Ok (deref σ' p)).
Proof.
  revert out σ σ'. induction pts as [|p rest IH]; intros out σ σ'; simpl.
  { intros [= <- <-]. split; [done|]. split; [done|].
    intros p Hp. by apply elem_of_nil in Hp. }
  unfold_bind.
  destruct (convert_unit lookup σ p t) as [[p1 σ1]|] eqn:Hc; [|done].
  simpl.
  destruct (map_convert_unit lookup σ1 rest t) as [[rs σ2]|] eqn:Hm; [|done].
  simpl. intros [= <- <-].
  apply convert_unit_inv in Hc as (-> & d' & Hd & Hu).
  apply IH in Hm as (-> & Hout & Hin).
  assert (Hp1 : deref σ1 p = d') by (rewrite Hu; by case_decide).
  assert (Hq1 : ∀ q, q ≠ p → deref σ1 q = deref σ q)
    by (intros q Hq; rewrite Hu; by case_decide).
  split; [done|]. split.
  { intros q Hq. apply not_elem_of_cons in Hq as [Hqp Hqr].
    rewrite Hout by done. by apply Hq1. }
  intros q Hq. destruct (decide (q ∈ rest)) as [Hqr|Hqr].
  - specialize (Hin q Hqr). destruct (decide (q = p)) as [->|Hqp].
    + rewrite Hp1, (convert_dict_idem _ _ _ Hd) in Hin.
      injection Hin as <-. done.
    + by rewrite Hq1 in Hin.
  - apply elem_of_cons in Hq as [->|Hq]; [|done].
    by rewrite Hout, Hp1.
Qed.

Lemma map_convert_unit_raise (t : pyval) (pts : list loc) (σ : store) (e : exn) :
  map_convert_unit lookup σ pts t = Raise e →
  ∃ p, p ∈ pts ∧ convert_unit lookup σ p t = Raise e.
Proof.
  revert σ. induction pts as [|p rest IH]; intros σ; simpl; [done|].
  unfold_bind.
  destruct (convert_unit lookup σ p t) as [[p1 σ1]|e1] eqn:Hc.
  2:{ intros [= <-]. exists p. split; [apply elem_of_cons; by left|done]. }
  simpl.
  destruct (map_convert_unit lookup σ1 rest t) as [[rs σ2]|e2] eqn:Hm; [done|].
  intros [= ->].
  apply convert_unit_inv in Hc as (-> & d' & Hd & Hu).
  apply IH in Hm as (q & Hq & Hcq).
  exists q. split; [apply elem_of_cons; by right|].
  destruct (convert_dict lookup (deref σ1 q) t) as [dq|eq'] eqn:Hdq.
  { apply convert_unit_ok with (σ := σ1) in Hdq as (? & Hok & _). congruence. }
  apply convert_unit_raise with (σ := σ1) in Hdq as Hr.
  assert (eq' = e) as -> by congruence.
  apply convert_unit_raise.
  destruct (decide (q = p)) as [->|Hqp].
  - rewrite Hu, decide_True in Hdq by done.
    rewrite (convert_dict_idem _ _ _ Hd) in Hdq. done.
  - by rewrite Hu, decide_False in Hdq.
Qed.

(** C10. Without a [unit_id] key, [get_data_points] returns the
    retrieved points as they are.  With one, it returns the same point
    objects in the same order, each holding what [convert_unit] with
    that target makes of it, and nothing else in the store has changed;
    the call raises exactly when the conversion of one of the points
    does. *)
Theorem get_data_points_converts (σ : store) (selections : dict) :
  let pts := (lib_get_data_points σ selections).1 in
  let σ0 := (lib_get_data_points σ selections).2 in
  let t := get selections "unit_id" in
  match get_data_points lookup lib_get_data_points σ selections with
  | Ok (out, σ') =>
      out = pts
      ∧ if contains selections "unit_id"
        then (∀ p, p ∈ pts →
                ∃ σp, convert_unit lookup σ0 p t = Ok (p, σp)
                      ∧ deref σ' p = deref σp p)
             ∧ (∀ q, q ∉ pts → deref σ' q = deref σ0 q)
        else σ' = σ0
  | Raise e =>
      contains selections "unit_id" = true
      ∧ ∃ p, p ∈ pts ∧ convert_unit lookup σ0 p t = Raise e
  end.
Proof.
  intros pts σ0 t. unfold get_data_points. cbv zeta.
  destruct (contains selections "unit_id") eqn:Hc.
  2:{ fold pts σ0. by destruct (lib_get_data_points σ selections). }
  fold pts σ0 t.
  destruct (map_convert_unit lookup σ0 pts t) as [[out σ']|e] eqn:Hm.
  - apply map_convert_unit_ok in Hm as (-> & Hout & Hin).
    split; [done|]. split; [|done].
    intros p Hp. apply Hin in Hp.
    destruct (convert_unit_ok _ _ _ _ _ Hp) as (σp & Hcp & Hup).
    exists σp. split; [done|]. rewrite Hup. by case_decide.
  - split; [done|]. by apply map_convert_unit_raise in Hm.
Qed.

End GetDataPointsClaims.

(** ** The Cartesian product *)

Section Product.

Context {A : Type}.
Implicit Types (pools : list (list A)) (pool : list A).

Lemma product_step_cons (x : list A) (result : list (list A)) pool :
  product_step (x :: result) pool
  = ((λ y, x ++ [y]) <$> pool) ++ product_step result pool.
Proof. done. Qed.

Lemma product_snoc pools pool :
  product (pools ++ [pool]) = product_step (product pools) pool.
Proof. unfold product. by rewrite fold_left_app. Qed.

Lemma length_product_step (result : list (list A)) pool :
  length (product_step result pool) = (length result * length pool)%nat.
Proof.
  induction result as [|x result IH]; [done|].
  rewrite product_step_cons, length_app, length_fmap, IH. simpl. lia.
Qed.

(** The number of tuples is the product of the sizes of the pools. *)
Lemma length_fold_product_step pools (acc : list (list A)) :
  length (fold_left product_step pools acc)
  = (length acc * foldr (λ pool n, length pool * n) 1 pools)%nat.
Proof.
  revert acc. induction pools as [|pool pools IH]; intros acc; simpl; [lia|].
  rewrite IH, length_product_step. lia.
Qed.

Lemma length_product pools :
  length (product pools) = foldr (λ pool n, length pool * n)%nat 1%nat pools.
Proof. unfold product. rewrite length_fold_product_step. simpl. lia. Qed.

(** In the product with one more pool, the tuples that extend the [i]-th
    tuple so far stand together, in the order of the new pool. *)
Lemma lookup_product_step (result : list (list A)) pool (i j : nat)
    (x : list A) (y : A) :
  result !! i = Some x → pool !! j = Some y →
  product_step result pool !! (i * length pool + j)%nat = Some (x ++ [y]).
Proof.
  revert i. induction result as [|x0 result IH]; intros i Hi Hj; [done|].
  rewrite product_step_cons. destruct i as [|i]; simpl in *.
  - injection Hi as ->. rewrite lookup_app_l.
    + by rewrite list_lookup_fmap, Hj.
    + rewrite length_fmap. by eapply lookup_lt_Some.
  - rewrite lookup_app_r; rewrite length_fmap; [|lia].
    replace (length pool + i * length pool + j - length pool)%nat
      with (i * length pool + j)%nat by lia.
    by apply IH.
Qed.

(** Every tuple has one component per pool. *)
Lemma Forall_length_fold_product_step pools (acc : list (list A)) (n : nat) :
  Forall (λ comb, length comb = n) acc →
  Forall (λ comb, length comb = (n + length pools)%nat)
         (fold_left product_step pools acc).
Proof.
  revert acc n. induction pools as [|pool pools IH]; intros acc n Hacc; simpl.
  { eapply Forall_impl; [exact Hacc|]. simpl. intros. lia. }
  replace (n + S (length pools))%nat with (S n + length pools)%nat by lia.
  apply IH. clear IH. induction Hacc as [|x acc Hx _ IHacc]; [constructor|].
  rewrite product_step_cons. apply Forall_app. split; [|done].
  apply Forall_fmap, Forall_forall. intros y _. simpl.
  rewrite length_app. simpl. lia.
Qed.

Lemma Forall_length_product pools :
  Forall (λ comb, length comb = length pools) (product pools).
Proof.
  apply (Forall_length_fold_product_step pools [[]] 0). by repeat constructor.
Qed.

End Product.

(** ** Dictionaries built from pairs *)

Lemma dom_fold_insert (pairs : list (string * pyval)) (d : dict) :
  dom (fold_left (λ d kv, <[kv.1 := kv.2]> d) pairs d)
  = dom d ∪ list_to_set pairs.*1.
Proof.
  revert d. induction pairs as [|[k v] pairs IH]; intros d; simpl.
  - by rewrite union_empty_r_L.
  - rewrite IH, dom_insert_L.
    by rewrite (union_comm_L {[k]} (dom d)), <- union_assoc_L.
Qed.

Lemma dom_dict_of_pairs (pairs : list (string * pyval)) :
  dom (dict_of_pairs pairs) = list_to_set pairs.*1.
Proof.
  unfold dict_of_pairs. by rewrite dom_fold_insert, dom_empty_L, union_empty_l_L.
Qed.

(** ** The search phase and the loop over the combinations *)

Section FindDataSeriesFacts.

Variable K : Z.
Variable search : string → pyval → list dict.
Variable get_data_series : dict → list dict.
Variable rank_series_by_source : list dict → list dict.

Local Abbreviation phase := (search_phase K search).
Local Abbreviation find :=
  (find_data_series K search get_data_series rank_series_by_source).
Local Abbreviation step := (combination_step get_data_series).

Lemma search_phase_present (kwargs : dict) :
  search_results (phase kwargs) = candidates K search kwargs <$> present_roles kwargs
  ∧ keys (phase kwargs) = snd <$> present_roles kwargs
  ∧ calls (phase kwargs)
    = (λ r, CSearch r.1.2 (get kwargs r.1.1)) <$> present_roles kwargs.
Proof.
  unfold search_phase, search_role, present_roles, roles.
  rewrite !filter_cons, filter_nil. simpl.
  repeat case_decide;
    repeat match goal with H : truthy _ = true |- _ => rewrite H; clear H end;
    repeat match goal with
           | H : truthy ?v ≠ true |- _ =>
               apply not_true_is_false in H; rewrite H; clear H
           end;
    done.
Qed.

Lemma fold_combination_step (kwargs : dict) (ks : list string)
    (combs : list (list dict)) (acc : list dict * list call) :
  fold_left (step kwargs ks) combs acc
  = (acc.1 ++ (combs ≫= λ comb,
                 stamp kwargs <$> get_data_series (entities_of ks comb)),
     acc.2 ++ ((λ comb, CGetDataSeries (entities_of ks comb)) <$> combs)).
Proof.
  revert acc. induction combs as [|comb combs IH]; intros [all tr]; simpl.
  { by rewrite !app_nil_r. }
  rewrite IH. unfold combination_step. simpl.
  by rewrite <- !app_assoc.
Qed.

Lemma selections_tried_searches (rs : list (string * string * string)) (kwargs : dict) :
  selections_tried ((λ r, CSearch r.1.2 (get kwargs r.1.1)) <$> rs) = [].
Proof. induction rs as [|r rs IH]; [done|]. simpl. apply IH. Qed.

Lemma selections_tried_get {X} (f : X → dict) (l : list X) :
  selections_tried ((λ x, CGetDataSeries (f x)) <$> l) = f <$> l.
Proof. induction l as [|x l IH]; [done|]. simpl. by f_equal. Qed.

(** The selections tried are the tuples of the product, in its order. *)
Lemma selections_tried_find (kwargs : dict) :
  selections_tried (find kwargs).2
  = entities_of (keys (phase kwargs))
      <$> product (search_results (phase kwargs)).
Proof.
  unfold find_data_series. cbv zeta.
  rewrite fold_combination_step. simpl.
  destruct (search_phase_present kwargs) as (_ & _ & ->).
  unfold selections_tried. rewrite !omap_app. fold selections_tried.
  rewrite selections_tried_searches. simpl. rewrite app_nil_r.
  apply selections_tried_get.
Qed.

End FindDataSeriesFacts.

(** ** Series resolution: what is searched, what is tried, in which order *)

Section FindDataSeriesClaims.

Variable K : Z.
Variable search : string → pyval → list dict.
Variable get_data_series : dict → list dict.
Variable rank_series_by_source : list dict → list dict.

Local Abbreviation phase := (search_phase K search).
Local Abbreviation find :=
  (find_data_series K search get_data_series rank_series_by_source).

Lemma search_phase_no_role (kwargs : dict) :
  (∀ r, r ∈ roles → truthy (get kwargs r.1.1) = false) →
  phase kwargs = {| search_results := []; keys := []; calls := [] |}.
Proof.
  intros Hno.
  assert (Hall : Forall (λ r, truthy (get kwargs r.1.1) = false) roles)
    by by apply Forall_forall.
  unfold roles in Hall. repeat (apply Forall_cons in Hall as [? Hall]).
  simpl in *. unfold search_phase, search_role.
  by repeat match goal with H : truthy _ = false |- _ => rewrite H; clear H end.
Qed.

(** C1. When the query gives no text for any of the four roles, no
    search is made, [get_data_series] is called exactly once, with the
    empty selection, and what the generator yields is the ranking of the
    series that call returned, stamped with the time range of the
    query. *)
Theorem find_data_series_no_role (kwargs : dict) :
  (∀ r, r ∈ roles → truthy (get kwargs r.1.1) = false) →
  let all_data_series := stamp kwargs <$> get_data_series ∅ in
  find kwargs
  = (rank_series_by_source all_data_series,
     [CGetDataSeries ∅; CRankSeriesBySource all_data_series])
  ∧ existsb is_search (find kwargs).2 = false
  ∧ selections_tried (find kwargs).2 = [∅].
Proof.
  intros Hno all_data_series.
  assert (Hfind : find kwargs
                  = (rank_series_by_source all_data_series,
                     [CGetDataSeries ∅; CRankSeriesBySource all_data_series])).
  { unfold find_data_series. cbv zeta.
    rewrite (search_phase_no_role kwargs Hno). simpl.
    unfold entities_of, dict_of_pairs. simpl. done. }
  by rewrite Hfind.
Qed.

(** C2. The selections are tried in the order of the product in which
    the last role varies fastest: the call number [i * n + j], where [n]
    is the number of candidates of the last role present, is for the
    [j]-th candidate of that role together with the [i]-th combination
    of candidates of the roles before it. *)
Theorem find_data_series_last_role_fastest (kwargs : dict)
    (pools : list (list dict)) (pool : list dict)
    (i j : nat) (x : list dict) (y : dict) :
  search_results (phase kwargs) = pools ++ [pool] →
  product pools !! i = Some x →
  pool !! j = Some y →
  selections_tried (find kwargs).2 !! (i * length pool + j)%nat
  = Some (entities_of (keys (phase kwargs)) (x ++ [y])).
Proof.
  intros Hres Hi Hj. rewrite selections_tried_find, Hres, product_snoc.
  rewrite list_lookup_fmap.
  by rewrite (lookup_product_step _ _ _ _ _ _ Hi Hj).
Qed.

Lemma length_slice_to (l : list dict) : (0 ≤ K)%Z → (Z.of_nat (length (slice_to l K)) ≤ K)%Z.
Proof.
  intros HK. unfold slice_to.
  destruct (Z.ltb_spec K 0) as [?|_]; [lia|].
  rewrite length_take. lia.
Qed.

Lemma slice_to_prefix {X} (l : list X) (k : Z) : slice_to l k `prefix_of` l.
Proof. unfold slice_to. destruct (k <? 0)%Z; apply prefix_take. Qed.

(** C7. With a bound [K] that is not negative, every role the query
    names contributes a prefix of at most [K] of its search results and
    the roles it does not name contribute nothing; the number of
    selections tried is the product of the numbers of candidates, and
    each selection tried has exactly the id keys of the roles named. *)
Theorem find_data_series_combinations (kwargs : dict) :
  (0 ≤ K)%Z →
  let st := phase kwargs in
  search_results st = candidates K search kwargs <$> present_roles kwargs
  ∧ keys st = snd <$> present_roles kwargs
  ∧ (∀ r, candidates K search kwargs r `prefix_of` search r.1.2 (get kwargs r.1.1)
          ∧ (Z.of_nat (length (candidates K search kwargs r)) ≤ K)%Z)
  ∧ length (selections_tried (find kwargs).2)
    = foldr (λ pool n, length pool * n)%nat 1%nat (search_results st)
  ∧ ∀ sel, sel ∈ selections_tried (find kwargs).2 →
           dom sel = list_to_set (keys st).
Proof.
  intros HK st.
  destruct (search_phase_present K search kwargs) as (Hres & Hkeys & _).
  fold st in Hres, Hkeys.
  split; [done|]. split; [done|]. split.
  { intros r. split; [apply slice_to_prefix|by apply length_slice_to]. }
  rewrite selections_tried_find. fold st. split.
  { by rewrite length_fmap, length_product. }
  intros sel Hsel. apply list_elem_of_fmap in Hsel as (comb & -> & Hcomb).
  pose proof (Forall_length_product (search_results st)) as Hlen.
  rewrite Forall_forall in Hlen. apply Hlen in Hcomb.
  unfold entities_of. rewrite dom_dict_of_pairs, fst_zip; [done|].
  rewrite length_fmap, Hcomb, Hres, Hkeys, !length_fmap. done.
Qed.

End FindDataSeriesClaims.

(** ** Series resolution on an example catalogue *)

(** C1, as stated, fails: the query without any role yields a series, and
    [get_data_series] has been called for it. *)
Lemma find_data_series_no_role_not_empty :
  (demo_find ∅).1 = [ {[ "frequency_id" := VInt 9 ]} ]
  ∧ (demo_find ∅).1 ≠ []
  ∧ existsb is_get_data_series (demo_find ∅).2 = true.
Proof. split; [reflexivity|]. split; [discriminate|reflexivity]. Qed.

Lemma find_data_series_no_role_witness :
  demo_find {[ "start_date" := VStr "2017-01-01" ]}
  = ([ <[ "start_date" := VStr "2017-01-01" ]> {[ "frequency_id" := VInt 9 ]} ],
     [ CGetDataSeries ∅;
       CRankSeriesBySource
         [ <[ "start_date" := VStr "2017-01-01" ]> {[ "frequency_id" := VInt 9 ]} ] ]).
Proof.
  refine (proj1 (find_data_series_no_role 5 demo_search demo_get_data_series
                   demo_rank {[ "start_date" := VStr "2017-01-01" ]} _)).
  intros r Hr. unfold roles in Hr. rewrite !elem_of_cons in Hr.
  destruct Hr as [->|[->|[->|[->|Hr]]]]; [reflexivity..|].
  by apply elem_of_nil in Hr.
Defined.

(** C2, as stated, fails: for two items and three metrics the second
    selection tried has the first item again, with the second metric;
    varying the first role fastest would try the second item next. *)
Lemma find_data_series_first_role_slowest :
  let st := search_phase 5 demo_search demo_query in
  selections_tried (demo_find demo_query).2 !! 1%nat
  = Some (<[ "item_id" := VInt 1 ]> {[ "metric_id" := VInt 20 ]})
  ∧ (entities_of (keys st) <$> product_first_fastest (search_results st)) !! 1%nat
    = Some (<[ "item_id" := VInt 2 ]> {[ "metric_id" := VInt 10 ]})
  ∧ selections_tried (demo_find demo_query).2
    ≠ entities_of (keys st) <$> product_first_fastest (search_results st).
Proof.
  split; [reflexivity|]. split; [reflexivity|].
  intros Heq. apply (f_equal (λ l : list dict, (λ d, get d "item_id") <$> l !! 1%nat)) in Heq.
  vm_compute in Heq. discriminate.
Qed.

Lemma find_data_series_last_role_fastest_witness :
  selections_tried (demo_find demo_query).2 !! (1 * 3 + 2)%nat
  = Some (<[ "item_id" := VInt 2 ]> {[ "metric_id" := VInt 30 ]}).
Proof.
  etransitivity.
  - apply (find_data_series_last_role_fastest 5 demo_search demo_get_data_series
             demo_rank demo_query
             [ [ {[ "id" := VInt 1 ]}; {[ "id" := VInt 2 ]} ] ]
             [ {[ "id" := VInt 10 ]}; {[ "id" := VInt 20 ]}; {[ "id" := VInt 30 ]} ]
             1%nat 2%nat [ {[ "id" := VInt 2 ]} ] {[ "id" := VInt 30 ]});
      reflexivity.
  - reflexivity.
Defined.

(** Two candidate items and three candidate metrics: six selections. *)
Lemma find_data_series_combinations_witness :
  (0 ≤ 5)%Z ∧ length (selections_tried (demo_find demo_query).2) = 6%nat.
Proof.
  split; [lia|].
  destruct (find_data_series_combinations 5 demo_search demo_get_data_series
              demo_rank demo_query ltac:(lia)) as (_ & _ & _ & Hn & _).
  etransitivity; [exact Hn|reflexivity].
Defined.

(** ** Unit conversion: repeated and chained conversions *)

Section ConvertUnitChains.

Variable lookup : string → pyval → entity.

Lemma Qc_of_Z_inj (a b : Z) : Qc_of_Z a = Qc_of_Z b → a = b.
Proof.
  intros Heq. apply (f_equal this) in Heq. simpl in Heq. by injection Heq.
Qed.

Lemma py_eq_VInt (a b : Z) : py_eq (VInt a) (VInt b) = bool_decide (a = b).
Proof.
  unfold py_eq. simpl. apply bool_decide_ext. split; [apply Qc_of_Z_inj|congruence].
Qed.

Lemma convertible_functional (u : pyval) (f o f' o' : Qc) :
  convertible lookup u f o → convertible lookup u f' o' → f = f' ∧ o = o'.
Proof.
  intros (cf & Hcf & Hf & _ & Ho) (cf' & Hcf' & Hf' & _ & Ho').
  assert (cf' = cf) as -> by congruence. split; congruence.
Qed.

(** After a successful call the first test of [convert_unit] holds for
    the point. *)
Lemma convert_dict_settled (d d' : dict) (t : pyval) :
  convert_dict lookup d t = Ok d' →
  is_none (get d' "unit_id") || py_eq (get d' "unit_id") t = true.
Proof.
  intros Hd. apply convert_dict_idem in Hd as Hd'.
  unfold convert_dict in Hd. cbv zeta in Hd. unfold_bind.
  destruct (is_none (get d "unit_id") || py_eq (get d "unit_id") t) eqn:Hearly.
  { by injection Hd as <-. }
  assert (Ht : get d' "unit_id" = t).
  { revert Hd.
    destruct (opt_get _ "factor") as [ff|]; simpl; [|done].
    destruct (truthy ff); simpl; [|done].
    destruct (opt_get _ "factor") as [tf|]; simpl; [|done].
    destruct (truthy tf); simpl; [|done].
    destruct (if negb _ then _ else _) as [d1|]; [|done].
    intros [= <-]. apply get_insert_eq. }
  by rewrite Ht, py_eq_refl, orb_true_r.
Qed.

(** X1. Converting a point a second time to the same target unit returns it
    as it is: the store after the second call is the store after the
    first. *)
Theorem convert_unit_idempotent (σ σ1 : store) (p p1 : loc) (t : pyval) :
  convert_unit lookup σ p t = Ok (p1, σ1) →
  convert_unit lookup σ1 p t = Ok (p, σ1).
Proof.
  intros Hc. apply convert_unit_inv in Hc as (-> & d' & Hd & Hu).
  apply convert_dict_settled in Hd.
  unfold convert_unit. cbv zeta.
  by rewrite (Hu p), decide_True, Hd.
Qed.

(** The contents of a point with a number as value, after conversion
    between two convertible units. *)
Lemma convert_dict_value (d : dict) (a b : Z) (x fa oa fb ob : Qc) :
  get d "unit_id" = VInt a →
  to_num (get d "value") = Some x →
  convertible lookup (VInt a) fa oa →
  convertible lookup (VInt b) fb ob →
  ∃ d', convert_dict lookup d (VInt b) = Ok d'
        ∧ get d' "unit_id" = VInt b
        ∧ to_num (get d' "value") = Some (((x * fa + oa) - ob) / fb)%Qc.
Proof.
  intros Hu Hx Ha Hb. destruct (decide (a = b)) as [<-|Hab].
  - exists d. split; [|split; [done|]].
    + unfold convert_dict. by rewrite Hu, py_eq_refl, orb_true_r.
    + destruct (convertible_functional _ _ _ _ _ Ha Hb) as [<- <-].
      rewrite Hx. f_equal. destruct Ha as (_ & _ & _ & Hfa & _). by field.
  - eexists. split.
    + eapply convert_dict_convertible; try done.
      rewrite py_eq_VInt. by apply bool_decide_eq_false_2.
    + split; [apply get_insert_eq|].
      by rewrite get_insert_ne, get_insert_eq.
Qed.

Lemma convert_unit_value (σ : store) (p : loc) (a b : Z) (x fa oa fb ob : Qc) :
  get (deref σ p) "unit_id" = VInt a →
  to_num (get (deref σ p) "value") = Some x →
  convertible lookup (VInt a) fa oa →
  convertible lookup (VInt b) fb ob →
  ∃ σ', convert_unit lookup σ p (VInt b) = Ok (p, σ')
        ∧ get (deref σ' p) "unit_id" = VInt b
        ∧ to_num (get (deref σ' p) "value") = Some (((x * fa + oa) - ob) / fb)%Qc.
Proof.
  intros Hu Hx Ha Hb.
  destruct (convert_dict_value _ _ _ _ _ _ _ _ Hu Hx Ha Hb) as (d' & Hd & Hu' & Hx').
  destruct (convert_unit_ok _ _ _ _ _ Hd) as (σ' & Hc & Hupd).
  exists σ'. split; [done|]. by rewrite (Hupd p), decide_True.
Qed.

(** X2. Over exact rational arithmetic, converting from unit [a] to unit [b]
    and then to unit [c] gives the same value and the same unit as
    converting from [a] to [c] directly. *)
Theorem convert_unit_chain (σ : store) (p : loc) (a b c : Z)
    (x fa oa fb ob fc oc : Qc) :
  get (deref σ p) "unit_id" = VInt a →
  to_num (get (deref σ p) "value") = Some x →
  convertible lookup (VInt a) fa oa →
  convertible lookup (VInt b) fb ob →
  convertible lookup (VInt c) fc oc →
  ∃ σ1 σ2 σ3,
    convert_unit lookup σ p (VInt b) = Ok (p, σ1)
    ∧ convert_unit lookup σ1 p (VInt c) = Ok (p, σ2)
    ∧ convert_unit lookup σ p (VInt c) = Ok (p, σ3)
    ∧ get (deref σ2 p) "unit_id" = get (deref σ3 p) "unit_id"
    ∧ to_num (get (deref σ2 p) "value") = to_num (get (deref σ3 p) "value").
Proof.
  intros Hu Hx Ha Hb Hc.
  destruct (convert_unit_value _ _ _ _ _ _ _ _ _ Hu Hx Ha Hb) as (σ1 & H1 & Hu1 & Hx1).
  destruct (convert_unit_value _ _ _ _ _ _ _ _ _ Hu1 Hx1 Hb Hc) as (σ2 & H2 & Hu2 & Hx2).
  destruct (convert_unit_value _ _ _ _ _ _ _ _ _ Hu Hx Ha Hc) as (σ3 & H3 & Hu3 & Hx3).
  exists σ1, σ2, σ3. repeat (split; [done|]). split; [congruence|].
  rewrite Hx2, Hx3. f_equal.
  destruct Hb as (_ & _ & _ & Hfb & _), Hc as (_ & _ & _ & Hfc & _).
  by field.
Qed.

End ConvertUnitChains.

Lemma demo_convertible_10 :
  convertible demo_units (VInt 10) (Qc_of_Z 1) (Qc_of_Z 0).
Proof.
  eexists. split; [reflexivity|]. split; [reflexivity|].
  split; [|reflexivity]. by apply Qc_of_Z_nonzero.
Defined.

Lemma convert_unit_idempotent_witness :
  ∃ σ1, convert_unit demo_units (demo_store 14) 0%nat (VInt 10) = Ok (0%nat, σ1)
        ∧ convert_unit demo_units σ1 0%nat (VInt 10) = Ok (0%nat, σ1).
Proof.
  eexists. split; [reflexivity|].
  apply (convert_unit_idempotent demo_units (demo_store 14) _ 0%nat 0%nat (VInt 10)).
  reflexivity.
Defined.

Lemma convert_unit_chain_witness :
  ∃ σ1 σ2 σ3,
    convert_unit demo_units (demo_store 14) 0%nat (VInt 36) = Ok (0%nat, σ1)
    ∧ convert_unit demo_units σ1 0%nat (VInt 10) = Ok (0%nat, σ2)
    ∧ convert_unit demo_units (demo_store 14) 0%nat (VInt 10) = Ok (0%nat, σ3)
    ∧ get (deref σ2 0%nat) "unit_id" = get (deref σ3 0%nat) "unit_id"
    ∧ to_num (get (deref σ2 0%nat) "value") = to_num (get (deref σ3 0%nat) "value").
Proof.
  apply (convert_unit_chain demo_units (demo_store 14) 0%nat 14 36 10
           (Qc_of_Z 2) (Qc_of_Z 1000) (Qc_of_Z 0) (Qc_of_Z 1) (Qc_of_Z 273)
           (Qc_of_Z 1) (Qc_of_Z 0)).
  - reflexivity.
  - reflexivity.
  - exact demo_convertible_14.
  - exact demo_convertible_36.
  - exact demo_convertible_10.
Defined.

(** ** Series resolution: the combinations tried and the calls made *)

Section ProductMembership.

Context {A : Type}.
Implicit Types (pools : list (list A)) (pool : list A).

Lemma elem_of_product_step (result : list (list A)) pool (comb : list A) :
  comb ∈ product_step result pool
  ↔ ∃ x y, comb = x ++ [y] ∧ x ∈ result ∧ y ∈ pool.
Proof.
  unfold product_step. rewrite list_elem_of_bind. split.
  - intros (x & Hc & Hx). apply list_elem_of_fmap in Hc as (y & -> & Hy). eauto.
  - intros (x & y & -> & Hx & Hy). exists x. split; [|done].
    apply list_elem_of_fmap. eauto.
Qed.

(** The product holds exactly the tuples that take one element from
    every pool, pool by pool. *)
Lemma elem_of_product pools (comb : list A) :
  comb ∈ product pools ↔ Forall2 (λ c pool, c ∈ pool) comb pools.
Proof.
  revert comb. induction pools as [|pool pools IH] using rev_ind; intros comb.
  - unfold product. simpl. rewrite list_elem_of_singleton. split.
    + intros ->. constructor.
    + intros H. by apply Forall2_nil_inv_r in H.
  - rewrite product_snoc, elem_of_product_step. split.
    + intros (x & y & -> & Hx & Hy). apply Forall2_app; [by apply IH|].
      by repeat constructor.
    + intros H. apply Forall2_app_inv_r in H as (x & ys & Hx & Hy & ->).
      apply Forall2_cons_inv_r in Hy as (y & ys' & Hy & Hnil & ->).
      apply Forall2_nil_inv_r in Hnil as ->.
      exists x, y. split; [done|]. split; [by apply IH|done].
Qed.

Lemma product_empty_pool pools : [] ∈ pools → product pools = [].
Proof.
  intros Hin. apply length_zero_iff_nil. rewrite length_product.
  induction pools as [|pool pools IH]; [by apply elem_of_nil in Hin|].
  apply elem_of_cons in Hin as [<-|Hin]; simpl; [done|].
  rewrite IH by done. lia.
Qed.

(** The first tuple of the product takes the first element of every
    pool. *)
Lemma product_first pools (firsts : list A) :
  Forall2 (λ c pool, head pool = Some c) firsts pools →
  product pools !! 0%nat = Some firsts.
Proof.
  revert firsts. induction pools as [|pool pools IH] using rev_ind; intros firsts H.
  - by apply Forall2_nil_inv_r in H as ->.
  - apply Forall2_app_inv_r in H as (x & ys & Hx & Hy & ->).
    apply Forall2_cons_inv_r in Hy as (y & ys' & Hy & Hnil & ->).
    apply Forall2_nil_inv_r in Hnil as ->.
    rewrite product_snoc.
    apply (lookup_product_step _ pool 0 0 x y); [by apply IH|].
    by destruct pool; simplify_eq.
Qed.

End ProductMembership.

Section FindDataSeriesMore.

Variable K : Z.
Variable search : string → pyval → list dict.
Variable get_data_series : dict → list dict.
Variable rank_series_by_source : list dict → list dict.

Local Abbreviation phase := (search_phase K search).
Local Abbreviation find :=
  (find_data_series K search get_data_series rank_series_by_source).

Lemma find_data_series_unfold (kwargs : dict) :
  find kwargs
  = (rank_series_by_source (series_of K search get_data_series kwargs),
     ((λ r, CSearch r.1.2 (get kwargs r.1.1)) <$> present_roles kwargs)
     ++ (CGetDataSeries <$> selections_of K search kwargs)
     ++ [CRankSeriesBySource (series_of K search get_data_series kwargs)]).
Proof.
  unfold find_data_series. cbv zeta. rewrite fold_combination_step. simpl.
  destruct (search_phase_present K search kwargs) as (_ & _ & ->).
  unfold series_of, selections_of.
  rewrite list_fmap_bind, <- list_fmap_compose, <- app_assoc. done.
Qed.

(** X5. The calls of [find_data_series], in order: one search for each role
    the query names, in the order item, metric, region, partner region;
    then one [get_data_series] for each combination of candidates; then
    a single ranking, of all the series found, grouped by combination in
    the order the combinations were tried.  What is yielded is that
    ranking. *)
Theorem find_data_series_calls (kwargs : dict) :
  find kwargs
  = (rank_series_by_source (series_of K search get_data_series kwargs),
     ((λ r, CSearch r.1.2 (get kwargs r.1.1)) <$> present_roles kwargs)
     ++ (CGetDataSeries <$> selections_of K search kwargs)
     ++ [CRankSeriesBySource (series_of K search get_data_series kwargs)]).
Proof. apply find_data_series_unfold. Qed.

(** X6. When a role named in the query has no candidate, no series is asked
    for and the ranking is that of the empty list. *)
Theorem find_data_series_no_candidate (kwargs : dict) (r : string * string * string) :
  r ∈ present_roles kwargs →
  candidates K search kwargs r = [] →
  selections_tried (find kwargs).2 = []
  ∧ (find kwargs).1 = rank_series_by_source [].
Proof.
  intros Hr Hnone.
  assert (Hsel : selections_of K search kwargs = []).
  { unfold selections_of.
    destruct (search_phase_present K search kwargs) as (-> & _ & _).
    rewrite product_empty_pool; [done|].
    apply list_elem_of_fmap. eauto. }
  split.
  - by rewrite selections_tried_find.
  - rewrite find_data_series_unfold. simpl. unfold series_of. by rewrite Hsel.
Qed.

(** X7. Every selection that takes one candidate from each role named is
    tried, and nothing else is. *)
Theorem find_data_series_tries_all (kwargs : dict) (sel : dict) :
  sel ∈ selections_tried (find kwargs).2
  ↔ ∃ comb,
      Forall2 (λ c r, c ∈ candidates K search kwargs r) comb (present_roles kwargs)
      ∧ sel = entities_of (snd <$> present_roles kwargs) comb.
Proof.
  rewrite selections_tried_find.
  destruct (search_phase_present K search kwargs) as (-> & -> & _).
  rewrite list_elem_of_fmap. split.
  - intros (comb & -> & Hcomb). exists comb. split; [|done].
    apply elem_of_product in Hcomb.
    by apply (Forall2_fmap_r (candidates K search kwargs)
                (λ (c : dict) pool, c ∈ pool)) in Hcomb.
  - intros (comb & Hcomb & ->). exists comb. split; [done|].
    apply elem_of_product.
    by apply (Forall2_fmap_r (candidates K search kwargs)
                (λ (c : dict) pool, c ∈ pool)).
Qed.

Lemma stamp_start_date (kwargs ds : dict) :
  truthy (get kwargs "start_date") = true →
  stamp kwargs ds !! "start_date" = Some (get kwargs "start_date").
Proof.
  intros Hs. unfold stamp. rewrite Hs.
  destruct (truthy (get kwargs "end_date")).
  - rewrite lookup_insert_ne by done. apply lookup_insert_eq.
  - apply lookup_insert_eq.
Qed.

Lemma stamp_end_date (kwargs ds : dict) :
  truthy (get kwargs "end_date") = true →
  stamp kwargs ds !! "end_date" = Some (get kwargs "end_date").
Proof. intros He. unfold stamp. rewrite He. apply lookup_insert_eq. Qed.

Lemma stamp_other (kwargs ds : dict) (k : string) :
  k ≠ "start_date" → k ≠ "end_date" → stamp kwargs ds !! k = ds !! k.
Proof.
  intros Hs He. unfold stamp.
  destruct (truthy (get kwargs "start_date")), (truthy (get kwargs "end_date"));
    by rewrite ?lookup_insert_ne.
Qed.

(** X8. A start date given in the query is the start date of every series
    handed to the ranking, whatever start date the catalogue gave for
    the series; the same holds for the end date; the other fields of the
    series are what [get_data_series] returned. *)
Theorem find_data_series_stamps (kwargs : dict) (l : list dict) (ds : dict) :
  CRankSeriesBySource l ∈ (find kwargs).2 →
  ds ∈ l →
  (truthy (get kwargs "start_date") = true →
   ds !! "start_date" = Some (get kwargs "start_date"))
  ∧ (truthy (get kwargs "end_date") = true →
     ds !! "end_date" = Some (get kwargs "end_date"))
  ∧ ∃ sel orig, sel ∈ selections_tried (find kwargs).2
                ∧ orig ∈ get_data_series sel
                ∧ ∀ k, k ≠ "start_date" → k ≠ "end_date" → ds !! k = orig !! k.
Proof.
  rewrite selections_tried_find. fold (selections_of K search kwargs).
  rewrite find_data_series_unfold. simpl.
  rewrite !elem_of_app, list_elem_of_singleton.
  intros [Hin|[Hin|Hin]] Hds.
  { apply list_elem_of_fmap in Hin as (? & ? & _). done. }
  { apply list_elem_of_fmap in Hin as (? & ? & _). done. }
  injection Hin as ->. unfold series_of in Hds.
  apply list_elem_of_bind in Hds as (sel & Hds & Hsel).
  apply list_elem_of_fmap in Hds as (orig & -> & Horig).
  split; [apply stamp_start_date|]. split; [apply stamp_end_date|].
  exists sel, orig. split; [done|]. split; [done|]. apply stamp_other.
Qed.

(** X9. With a bound of at least one, and a result for every role named, the
    first selection tried takes for every role the entity that
    [search_for_entity] returns for it. *)
Theorem find_data_series_first_selection (kwargs : dict) :
  (1 ≤ K)%Z →
  (∀ r, r ∈ present_roles kwargs → search r.1.2 (get kwargs r.1.1) ≠ []) →
  selections_tried (find kwargs).2 !! 0%nat
  = Some (dict_of_pairs
            ((λ r, (r.2, search_for_entity search r.1.2 (get kwargs r.1.1)))
               <$> present_roles kwargs)).
Proof.
  intros HK Hres. rewrite selections_tried_find.
  destruct (search_phase_present K search kwargs) as (-> & -> & _).
  rewrite list_lookup_fmap.
  rewrite (product_first _
             ((λ r, default ∅ (head (search r.1.2 (get kwargs r.1.1))))
                <$> present_roles kwargs)).
  - simpl. f_equal. unfold entities_of. f_equal.
    rewrite <- !list_fmap_compose.
    induction (present_roles kwargs) as [|r rs IH]; [done|].
    simpl. f_equal.
    + unfold search_for_entity.
      by destruct (search r.1.2 (get kwargs r.1.1)).
    + apply IH. intros r' Hr'. apply Hres. by right.
  - apply Forall2_fmap_l, Forall2_fmap_r, Forall_Forall2_diag, Forall_forall.
    intros r Hr. specialize (Hres r Hr). unfold compose, candidates, slice_to.
    destruct (Z.ltb_spec K 0) as [?|_]; [lia|].
    destruct (search r.1.2 (get kwargs r.1.1)) as [|x l]; [congruence|].
    destruct (Z.to_nat K) eqn:HKn; [lia|]. done.
Qed.

End FindDataSeriesMore.

(** ** The sample script: arguments and entity lists *)

Section AnalogousYearsFacts.

Import AnalogousYears.

Lemma lower_char_capital_char (c : Ascii.ascii) :
  lower_char (capital_char c) = lower_char c.
Proof. by destruct c as [[] [] [] [] [] [] [] []]. Qed.

Lemma lower_char_idem (c : Ascii.ascii) : lower_char (lower_char c) = lower_char c.
Proof. by destruct c as [[] [] [] [] [] [] [] []]. Qed.

Lemma lower_capitals (s : string) : lower (capitals s) = lower s.
Proof.
  induction s as [|c s IH]; [done|]. simpl. by rewrite lower_char_capital_char, IH.
Qed.

Lemma lower_idem (s : string) : lower (lower s) = lower s.
Proof.
  induction s as [|c s IH]; [done|]. simpl. by rewrite lower_char_idem, IH.
Qed.

(** X10. [str2bool] does not look at the case of the letters A to Z: a
    text, the text with these letters in capitals and the text with them
    in small letters get the same answer.
    A text is answered with [True] exactly when in small letters it is
    yes, true, t or y, with [False] exactly when it is no, false, f or n,
    and with the argument error otherwise. *)
Theorem str2bool_any_case (s : string) :
  str2bool (VStr (capitals s)) = str2bool (VStr s)
  ∧ str2bool (VStr (lower s)) = str2bool (VStr s)
  ∧ (str2bool (VStr s) = inr true ↔ lower s ∈ ["yes"; "true"; "t"; "y"])
  ∧ (str2bool (VStr s) = inr false ↔ lower s ∈ ["no"; "false"; "f"; "n"])
  ∧ (str2bool (VStr s) = inl ArgumentTypeError
     ↔ lower s ∉ ["yes"; "true"; "t"; "y"; "no"; "false"; "f"; "n"]).
Proof.
  unfold str2bool. rewrite lower_capitals, lower_idem.
  split; [done|]. split; [done|].
  assert (Hdisj : lower s ∈ ["yes"; "true"; "t"; "y"] →
                  lower s ∈ ["no"; "false"; "f"; "n"] → False).
  { rewrite !elem_of_cons, !elem_of_nil. intros H1 H2.
    destruct H1 as [?|[?|[?|[?|[]]]]];
      destruct H2 as [?|[?|[?|[?|[]]]]]; congruence. }
  change ["yes"; "true"; "t"; "y"; "no"; "false"; "f"; "n"]
    with (["yes"; "true"; "t"; "y"] ++ ["no"; "false"; "f"; "n"]).
  rewrite elem_of_app.
  repeat case_bool_decide; repeat split; try done; try tauto; intros; exfalso; tauto.
Qed.

Section EntitiesListFacts.

Variable lookup_raises : string → pyval → option pyerror.

Lemma mapM_inr {X Y} (f : X → pyerror + Y) (l : list X) (k : list Y) :
  mapM f l = inr k ↔ Forall2 (λ x y, f x = inr y) l k.
Proof.
  revert k. induction l as [|x l IH]; intros k; simpl.
  - split; [intros [= <-]; constructor|]. intros H. by apply Forall2_nil_inv_l in H as ->.
  - unfold mbind, sum_bind, mret, sum_ret. split.
    + destruct (f x) as [|y] eqn:Hx; [done|].
      destruct (mapM f l) as [|k'] eqn:Hl; [done|].
      intros [= <-]. constructor; [done|]. by apply IH.
    + intros H. apply Forall2_cons_inv_l in H as (y & k' & Hx & Hl & ->).
      rewrite Hx. apply IH in Hl. unfold mbind, sum_bind, mret, sum_ret in Hl.
      by rewrite Hl.
Qed.

(** X11. When the item, source and frequency lists are as long as the metric
    list, there is a first region, and every id looked up exists,
    [entities_list] returns one entity for each metric, in order: the
    metric, item, source and frequency of that position, with the first
    region. *)
Theorem entities_list_ok (regions items metrics sources frequencies : list pyval)
    (region : pyval) :
  length items = length metrics →
  length sources = length metrics →
  length frequencies = length metrics →
  regions !! 0%nat = Some region →
  Forall (λ v, lookup_raises "metrics" v = None) metrics →
  Forall (λ v, lookup_raises "items" v = None) items →
  lookup_raises "regions" region = None →
  Forall (λ v, lookup_raises "sources" v = None) sources →
  Forall (λ v, lookup_raises "frequencies" v = None) frequencies →
  ∃ entities,
    entities_list lookup_raises regions items metrics sources frequencies
    = inr entities
    ∧ length entities = length metrics
    ∧ ∀ i m it s f,
        metrics !! i = Some m → items !! i = Some it →
        sources !! i = Some s → frequencies !! i = Some f →
        entities !! i = Some (entity_of m it region s f).
Proof.
  intros Hi Hs Hf Hr Hm Hit Hreg Hso Hfr.
  rewrite Forall_lookup in Hm, Hit, Hso, Hfr.
  assert (Hat : ∀ i, (i < length metrics)%nat →
            ∃ m it s f, metrics !! i = Some m ∧ items !! i = Some it
              ∧ sources !! i = Some s ∧ frequencies !! i = Some f
              ∧ entity_at lookup_raises regions items metrics sources frequencies i
                = inr (entity_of m it region s f)).
  { intros i Hlt.
    destruct (lookup_lt_is_Some_2 metrics i Hlt) as [m Hmi].
    destruct (lookup_lt_is_Some_2 items i ltac:(lia)) as [it Hiti].
    destruct (lookup_lt_is_Some_2 sources i ltac:(lia)) as [s Hsi].
    destruct (lookup_lt_is_Some_2 frequencies i ltac:(lia)) as [f Hfi].
    exists m, it, s, f. repeat (split; [done|]).
    unfold entity_at, index, check_if_exists.
    rewrite Hmi, Hiti, Hr, Hsi, Hfi. unfold mbind, sum_bind. simpl.
    by rewrite (Hm _ _ Hmi), (Hit _ _ Hiti), Hreg, (Hso _ _ Hsi), (Hfr _ _ Hfi). }
  set (expected := (λ i,
         default ∅ (m ← metrics !! i; it ← items !! i; s ← sources !! i;
                    f ← frequencies !! i; Some (entity_of m it region s f)))
       <$> seq 0 (length metrics)).
  exists expected. split; [|split].
  - unfold entities_list, list_length_validator.
    rewrite !bool_decide_eq_false_2 by lia. unfold mbind at 1 2 3, sum_bind.
    apply mapM_inr. unfold expected. apply Forall2_fmap_r, Forall_Forall2_diag.
    apply Forall_forall. intros i Hin. apply elem_of_seq in Hin.
    destruct (Hat i ltac:(lia)) as (m & it & s & f & Hmi & Hiti & Hsi & Hfi & Heq).
    unfold compose. by rewrite Hmi, Hiti, Hsi, Hfi.
  - unfold expected. by rewrite length_fmap, length_seq.
  - intros i m it s f Hmi Hiti Hsi Hfi. unfold expected.
    rewrite list_lookup_fmap, lookup_seq_lt by (by eapply lookup_lt_Some).
    simpl. by rewrite Hmi, Hiti, Hsi, Hfi.
Qed.

(** X12. When the item, the source or the frequency list is not as long as
    the metric list, [entities_list] raises the argument error, whatever
    the ids are and whether they exist or not. *)
Theorem entities_list_mismatch (regions items metrics sources frequencies : list pyval) :
  length items ≠ length metrics
  ∨ length sources ≠ length metrics
  ∨ length frequencies ≠ length metrics →
  entities_list lookup_raises regions items metrics sources frequencies
  = inl ArgumentTypeError.
Proof.
  intros Hne. unfold entities_list, list_length_validator.
  unfold mbind at 1 2 3, sum_bind.
  repeat case_bool_decide; try done. lia.
Qed.

(** X13. Without any region, [entities_list] still returns the empty list
    when there is no metric; with a metric whose id and whose item's id
    exist, it raises the index error. *)
Theorem entities_list_no_region (items metrics sources frequencies : list pyval)
    (m it : pyval) :
  length items = length metrics →
  length sources = length metrics →
  length frequencies = length metrics →
  (metrics = [] →
   entities_list lookup_raises [] items metrics sources frequencies = inr [])
  ∧ (metrics !! 0%nat = Some m → items !! 0%nat = Some it →
     lookup_raises "metrics" m = None → lookup_raises "items" it = None →
     entities_list lookup_raises [] items metrics sources frequencies
     = inl IndexError).
Proof.
  intros Hi Hs Hf. unfold entities_list, list_length_validator.
  rewrite !bool_decide_eq_false_2 by lia. unfold mbind at 1 2 3, sum_bind.
  split.
  - by intros ->.
  - intros Hm Hit Hlm Hlit.
    destruct metrics as [|m' metrics]; [done|]. simpl.
    unfold mbind at 1, sum_bind.
    unfold entity_at, index, check_if_exists. simplify_eq/=.
    rewrite Hit. unfold mbind, sum_bind. simpl. by rewrite Hlm, Hlit.
Qed.

End EntitiesListFacts.

End AnalogousYearsFacts.

(** ** Names of a selection and random picks *)

Section NamesFacts.

Variable lookup : string → pyval → dict.
Variable get_data_series : dict → list dict.

(** X14. [get_names_for_selection] returns exactly when every key of the
    selection is one of the six entity keys and every entity looked up
    has a name: the result then pairs, item by item, the part of the key
    before its first underscore with that name.  A selection with any
    other key, such as [start_date] or [metric_name], makes it raise. *)
Theorem get_names_for_selection_ok (selection names : list (string * pyval)) :
  (get_names_for_selection lookup selection = inr names
   ↔ Forall2 (λ item out,
                out.1 = before_underscore item.1
                ∧ ∃ entity_type,
                    ENTITY_KEY_TO_TYPE !! item.1 = Some entity_type
                    ∧ lookup entity_type item.2 !! "name" = Some out.2)
             selection names)
  ∧ (∀ item, item ∈ selection → ENTITY_KEY_TO_TYPE !! item.1 = None →
             ∃ e, get_names_for_selection lookup selection = inl e).
Proof.
  assert (Hone : ∀ item out,
            name_of lookup item = inr out
            ↔ out.1 = before_underscore item.1
              ∧ ∃ entity_type,
                  ENTITY_KEY_TO_TYPE !! item.1 = Some entity_type
                  ∧ lookup entity_type item.2 !! "name" = Some out.2).
  { intros item [label name]. unfold name_of, getitem. simpl.
    destruct (ENTITY_KEY_TO_TYPE !! item.1) as [ty|].
    - unfold mbind, sum_bind, mret, sum_ret.
      destruct (lookup ty item.2 !! "name") as [n|] eqn:Hn.
      + split.
        * intros [= <- <-]. split; [done|]. by exists ty.
        * intros (-> & ty' & [= <-] & Hn'). congruence.
      + split; [done|]. intros (_ & ty' & [= <-] & ?). congruence.
    - split; [done|]. by intros (_ & ty' & ? & _). }
  split.
  - unfold get_names_for_selection. rewrite mapM_inr.
    split; intros H; (eapply Forall2_impl; [exact H|]); intros item out; apply Hone.
  - intros item Hin Hnone.
    destruct (get_names_for_selection lookup selection) as [e|out] eqn:Hres; [eauto|].
    exfalso. apply mapM_inr in Hres.
    apply list_elem_of_lookup in Hin as [i Hi].
    destruct (Forall2_lookup_l _ _ _ _ _ Hres Hi) as (o & _ & Ho).
    apply Hone in Ho as (_ & ty & Hty & _). congruence.
Qed.

Lemma int_of_bounds (n : nat) (r : Qc) :
  (0 ≤ r)%Qc → (r < 1)%Qc → (0 < n)%nat →
  (0 ≤ int_of (Qc_of_Z (Z.of_nat n) * r)%Qc < Z.of_nat n)%Z.
Proof.
  intros H0 H1 Hn. unfold int_of.
  set (q := (Qc_of_Z (Z.of_nat n) * r)%Qc).
  assert (Hpos : (0 < Qc_of_Z (Z.of_nat n))%Qc).
  { unfold Qclt, Qlt. simpl. lia. }
  assert (Hq0 : (0 ≤ q)%Qc).
  { unfold q. rewrite <- (Qcmult_0_r (Qc_of_Z (Z.of_nat n))).
    apply Qcmult_le_mono_nonneg_l; [by apply Qclt_le_weak|done]. }
  assert (Hq1 : (q < Qc_of_Z (Z.of_nat n))%Qc).
  { unfold q. rewrite <- (Qcmult_1_r (Qc_of_Z (Z.of_nat n))) at 2.
    by apply Qcmult_lt_mono_pos_l. }
  clearbody q. destruct q as [[num den] Hcanon].
  unfold Qcle, Qclt, Qle, Qlt in Hq0, Hq1. simpl in *. split.
  - apply Z.div_pos; lia.
  - apply Z.div_lt_upper_bound; lia.
Qed.

(** X15. [pick_random_data_series] raises its exception exactly when the
    selection has no series; otherwise, for a random number from 0 up to
    but not including 1, it returns one of the series of the selection
    and never runs out of the list. *)
Theorem pick_random_data_series_in_range (random : Qc) (selected_entities : dict) :
  (0 ≤ random)%Qc → (random < 1)%Qc →
  match pick_random_data_series get_data_series random selected_entities with
  | inr data_series => data_series ∈ get_data_series selected_entities
  | inl e => e = NoDataSeries ∧ get_data_series selected_entities = []
  end.
Proof.
  intros H0 H1. unfold pick_random_data_series. cbv zeta.
  case_bool_decide as Hnil; [done|].
  assert (Hlen : (0 < length (get_data_series selected_entities))%nat).
  { destruct (get_data_series selected_entities); [done|simpl; lia]. }
  pose proof (int_of_bounds _ _ H0 H1 Hlen) as Hb.
  unfold index.
  destruct (get_data_series selected_entities !! _) as [ds|] eqn:Hds.
  - by eapply list_elem_of_lookup_2.
  - apply lookup_ge_None in Hds. lia.
Qed.

End NamesFacts.

(** ** The saved series: what [get_df] takes from the queue *)

Section SavedSeriesFacts.

Variable frame : Type.
Variable DataFrame : list dict → frame.
Variable empty : frame → bool.
Variable set_column : frame → string → pyval → frame.
Variable has_column : frame → string → bool.
Variable to_datetime : frame → string → frame.
Variable merge_outer : frame → frame → frame.
Variable py_int : string → option Z.
Variable lookup : string → pyval → entity.
Variable lib_get_data_points : store → dict → list loc * store.

Local Abbreviation add_points :=
  (add_points_to_df frame DataFrame empty set_column has_column to_datetime
     merge_outer).
Local Abbreviation loop :=
  (get_df_loop frame DataFrame empty set_column has_column to_datetime
     merge_outer lookup lib_get_data_points).
Local Abbreviation run_get_df :=
  (get_df frame DataFrame empty set_column has_column to_datetime
     merge_outer lookup lib_get_data_points).
Local Abbreviation run_GDH :=
  (GDH frame DataFrame empty set_column has_column to_datetime
     merge_outer py_int lookup lib_get_data_points).

Lemma add_points_to_df_series (c c' : client frame) (data_series : dict)
    (data_points : list dict) :
  add_points c data_series data_points = inr c' →
  _data_series_list frame c' = _data_series_list frame c
  ∧ _data_series_queue frame c' = _data_series_queue frame c.
Proof.
  unfold add_points_to_df. cbv zeta.
  destruct (empty (DataFrame data_points)); [by intros [= <-]|].
  unfold mbind, sum_bind. destruct (getitem data_series "source_id"); [done|].
  by destruct (empty (_data_frame frame c)); intros [= <-].
Qed.

(** The loop, from any point on: the list of saved series is never
    touched; when the loop ends, everything pending has been taken, in
    order, and the queue is empty; when it raises at a series, that
    series has been taken and what was pending after it is the queue. *)
Lemma get_df_loop_spec (show_revisions : bool) (pending : list loc)
    (c : client frame) (σ : store) (taken : list loc) :
  let o := loop show_revisions pending c σ taken in
  _data_series_list frame (out_client frame o) = _data_series_list frame c
  ∧ match out_error frame o with
    | None =>
        out_taken frame o = taken ++ pending
        ∧ (pending ≠ [] → _data_series_queue frame (out_client frame o) = [])
    | Some e =>
        ∃ before data_series rest,
          pending = before ++ data_series :: rest
          ∧ out_taken frame o = taken ++ before ++ [data_series]
          ∧ _data_series_queue frame (out_client frame o) = reverse rest
    end.
Proof.
  revert c σ taken. induction pending as [|ds rest IH]; intros c σ taken; simpl.
  { split; [done|]. split; [by rewrite app_nil_r|done]. }
  destruct (get_data_points _ _ _ _) as [[pts σ']|e]; simpl.
  2:{ split; [done|]. exists [], ds, rest. by rewrite app_nil_l. }
  destruct (add_points_to_df _ _ _ _ _ _ _ _ _ _) as [e|c'] eqn:Hadd; simpl.
  { split; [done|]. exists [], ds, rest. by rewrite app_nil_l. }
  apply add_points_to_df_series in Hadd as [Hlist Hqueue]. simpl in *.
  specialize (IH c' σ' (taken ++ [ds])). cbv zeta in IH.
  destruct IH as [IHlist IH]. split; [congruence|].
  destruct (out_error frame _) as [e|].
  - destruct IH as (before & ds' & rest' & -> & Htaken & Hq).
    exists (ds :: before), ds', rest'. split; [done|].
    split; [by rewrite Htaken, <- !app_assoc|done].
  - destruct IH as [Htaken Hq]. split; [by rewrite Htaken, <- app_assoc|].
    intros _. destruct rest as [|ds' rest']; [|by apply Hq].
    simpl. simpl in Htaken. by rewrite Hqueue.
Qed.

(** X16. When [get_df] returns, the queue is empty and the list of saved
    series is as before; the series were taken from the queue last
    added first; and a second [get_df] right after takes nothing and
    changes nothing. *)
Theorem get_df_drains (show_revisions : bool) (c : client frame) (σ : store) :
  let o := run_get_df show_revisions c σ in
  out_error frame o = None →
  _data_series_queue frame (out_client frame o) = []
  ∧ _data_series_list frame (out_client frame o) = _data_series_list frame c
  ∧ out_taken frame o = reverse (_data_series_queue frame c)
  ∧ ∀ again, run_get_df again (out_client frame o) (out_store frame o)
             = {| out_client := out_client frame o;
                  out_store := out_store frame o;
                  out_taken := []; out_error := None |}.
Proof.
  intros o Herr. unfold o, get_df in *.
  pose proof (get_df_loop_spec show_revisions
                (reverse (_data_series_queue frame c)) c σ []) as Hspec.
  cbv zeta in Hspec. rewrite Herr in Hspec.
  destruct Hspec as (Hlist & Htaken & Hqueue).
  assert (Hq : _data_series_queue frame
                 (out_client frame (loop show_revisions
                    (reverse (_data_series_queue frame c)) c σ [])) = []).
  { destruct (_data_series_queue frame c) as [|ds q] eqn:Hc using rev_ind.
    - rewrite reverse_nil. simpl. done.
    - apply Hqueue. rewrite reverse_app. done. }
  split; [done|]. split; [done|]. split; [done|].
  intros again. by rewrite Hq.
Qed.

(** X17. When [get_df] raises at a series, that series is no longer in the
    queue, although it was not loaded: the queue holds the series added
    before it, the series added after it were taken before it, and the
    list of saved series is as before. *)
Theorem get_df_raises (show_revisions : bool) (c : client frame) (σ : store)
    (e : pyerror) :
  let o := run_get_df show_revisions c σ in
  out_error frame o = Some e →
  _data_series_list frame (out_client frame o) = _data_series_list frame c
  ∧ ∃ data_series later,
      _data_series_queue frame c
      = _data_series_queue frame (out_client frame o) ++ data_series :: later
      ∧ out_taken frame o = reverse later ++ [data_series].
Proof.
  intros o Herr. unfold o, get_df in *.
  pose proof (get_df_loop_spec show_revisions
                (reverse (_data_series_queue frame c)) c σ []) as Hspec.
  cbv zeta in Hspec. rewrite Herr in Hspec.
  destruct Hspec as (Hlist & before & ds & rest & Hpending & Htaken & Hqueue).
  split; [done|]. exists ds, (reverse before).
  rewrite Hqueue, Htaken, reverse_involutive. split; [|done].
  apply (inj reverse). rewrite Hpending.
  by rewrite reverse_app, reverse_cons, !reverse_involutive, <- app_assoc.
Qed.

End SavedSeriesFacts.

(** ** What a fetch leaves of the objects in the store *)

Section FetchKeeps.

Variable lookup : string → pyval → entity.
Variable lib_get_data_points : store → dict → list loc * store.

Lemma convert_dict_other_keys (d d' : dict) (t : pyval) (k : string) :
  convert_dict lookup d t = Ok d' →
  k ≠ "value" → k ≠ "unit_id" → d' !! k = d !! k.
Proof.
  intros Hd Hv Hu. revert Hd. unfold convert_dict. cbv zeta. unfold_bind.
  destruct (is_none _ || py_eq _ _); [by intros [= <-]|].
  destruct (opt_get _ "factor") as [ff|]; simpl; [|done].
  destruct (truthy ff); simpl; [|done].
  destruct (opt_get _ "factor") as [tf|]; simpl; [|done].
  destruct (truthy tf); simpl; [|done].
  destruct (is_none (get d "value")); simpl.
  - intros [= <-]. by rewrite lookup_insert_ne.
  - destruct (converted_value _ _ _) as [r|]; simpl; [|done].
    intros [= <-]. by rewrite !lookup_insert_ne.
Qed.

Lemma map_convert_unit_other_keys (t : pyval) (pts out : list loc)
    (σ σ' : store) (q : loc) (k : string) :
  map_convert_unit lookup σ pts t = Ok (out, σ') →
  k ≠ "value" → k ≠ "unit_id" →
  deref σ' q !! k = deref σ q !! k.
Proof.
  intros Hm Hv Hu. revert out σ σ' Hm.
  induction pts as [|p rest IH]; intros out σ σ'; simpl.
  { by intros [= <- <-]. }
  unfold_bind.
  destruct (convert_unit lookup σ p t) as [[p1 σ1]|] eqn:Hc; [|done]. simpl.
  destruct (map_convert_unit lookup σ1 rest t) as [[rs σ2]|] eqn:Hrest; [|done].
  simpl. intros [= <- <-].
  rewrite (IH _ _ _ Hrest).
  apply convert_unit_inv in Hc as (-> & d' & Hd & Hupd).
  rewrite Hupd. case_decide as Hq; [|done]. subst q.
  by apply convert_dict_other_keys with (t := t).
Qed.

(** A fetch changes nothing of an object of the store but, when the
    object is among the points, its value and unit. *)
Lemma get_data_points_other_keys (σ σ' : store) (selections : dict)
    (points : list loc) (q : loc) (k : string) :
  keeps_objects lib_get_data_points →
  get_data_points lookup lib_get_data_points σ selections = Ok (points, σ') →
  deref σ q ≠ ∅ →
  k ≠ "value" → k ≠ "unit_id" →
  deref σ' q !! k = deref σ q !! k.
Proof.
  intros Hkeeps Hget Hq Hv Hu. unfold get_data_points in Hget. cbv zeta in Hget.
  rewrite <- (Hkeeps σ selections q Hq).
  destruct (contains selections "unit_id").
  - by eapply map_convert_unit_other_keys.
  - injection Hget as Hpair. by rewrite Hpair.
Qed.

End FetchKeeps.

(** ** The saved series: revisions, and the selection of [GDH] *)

Section SavedSeriesObjects.

Variable frame : Type.
Variable DataFrame : list dict → frame.
Variable empty : frame → bool.
Variable set_column : frame → string → pyval → frame.
Variable has_column : frame → string → bool.
Variable to_datetime : frame → string → frame.
Variable merge_outer : frame → frame → frame.
Variable py_int : string → option Z.
Variable lookup : string → pyval → entity.
Variable lib_get_data_points : store → dict → list loc * store.

Local Abbreviation loop :=
  (get_df_loop frame DataFrame empty set_column has_column to_datetime
     merge_outer lookup lib_get_data_points).
Local Abbreviation run_get_df :=
  (get_df frame DataFrame empty set_column has_column to_datetime
     merge_outer lookup lib_get_data_points).

Lemma revisions_shown_not_empty (σ : store) (ds : loc) :
  revisions_shown σ ds → deref σ ds ≠ ∅.
Proof. unfold revisions_shown. intros H Hempty. by rewrite Hempty in H. Qed.

Lemma get_df_loop_revisions (pending : list loc) (c : client frame) (σ : store)
    (taken : list loc) :
  keeps_objects lib_get_data_points →
  Forall (revisions_shown σ) taken →
  let o := loop true pending c σ taken in
  Forall (revisions_shown (out_store frame o)) (out_taken frame o).
Proof.
  intros Hkeeps. revert c σ taken.
  induction pending as [|ds rest IH]; intros c σ taken Htaken; simpl; [done|].
  set (σ1 := setitem σ ds "show_revisions" (VBool true)).
  assert (H1 : Forall (revisions_shown σ1) (taken ++ [ds])).
  { apply Forall_app. split.
    - eapply Forall_impl; [exact Htaken|]. intros q Hq. unfold revisions_shown, σ1.
      rewrite deref_setitem. case_decide; [apply lookup_insert_eq|done].
    - apply Forall_singleton. unfold revisions_shown, σ1.
      rewrite deref_setitem_eq. apply lookup_insert_eq. }
  destruct (get_data_points _ _ _ _) as [[pts σ']|e] eqn:Hget; simpl; [|done].
  assert (H2 : Forall (revisions_shown σ') (taken ++ [ds])).
  { eapply Forall_impl; [exact H1|]. intros q Hq. unfold revisions_shown.
    rewrite (get_data_points_other_keys _ _ _ _ _ _ q "show_revisions" Hkeeps Hget);
      [done|by apply revisions_shown_not_empty|done|done]. }
  destruct (add_points_to_df _ _ _ _ _ _ _ _ _ _) as [e|c']; simpl; [done|].
  by apply IH.
Qed.

(** X18. [get_df(show_revisions=True)] writes into the saved series
    themselves: whether it returns or raises, every series it has taken
    from the queue has [show_revisions] set in the store afterwards, so
    the series in the list of saved series, which are the same objects,
    carry the mark from then on. *)
Theorem get_df_marks_saved_series (c : client frame) (σ : store) (data_series : loc) :
  keeps_objects lib_get_data_points →
  let o := run_get_df true c σ in
  data_series ∈ out_taken frame o →
  deref (out_store frame o) data_series !! "show_revisions" = Some (VBool true).
Proof.
  intros Hkeeps o Hin.
  pose proof (get_df_loop_revisions (reverse (_data_series_queue frame c)) c σ []
                Hkeeps ltac:(constructor)) as Hall.
  rewrite Forall_forall in Hall. by apply Hall.
Qed.

End SavedSeriesObjects.

(** ** The selection and the outcome of [GDH] *)

Lemma lookup_fold_insert_notin (pairs : list (string * pyval)) (d : dict) (k : string) :
  k ∉ pairs.*1 →
  fold_left (λ d kv, <[kv.1 := kv.2]> d) pairs d !! k = d !! k.
Proof.
  revert d. induction pairs as [|[k0 v0] pairs IH]; intros d Hk; simpl; [done|].
  simpl in Hk. apply not_elem_of_cons in Hk as [Hne Hk].
  rewrite IH by done. by rewrite lookup_insert_ne.
Qed.

Lemma lookup_fold_insert_NoDup (pairs : list (string * pyval)) (d : dict)
    (k : string) (v : pyval) :
  NoDup pairs.*1 → (k, v) ∈ pairs →
  fold_left (λ d kv, <[kv.1 := kv.2]> d) pairs d !! k = Some v.
Proof.
  revert d. induction pairs as [|[k0 v0] pairs IH]; intros d Hnd Hin; simpl.
  { by apply elem_of_nil in Hin. }
  simpl in Hnd. apply NoDup_cons in Hnd as [Hk0 Hnd].
  apply elem_of_cons in Hin as [[= -> ->]|Hin].
  - rewrite lookup_fold_insert_notin by done. apply lookup_insert_eq.
  - by apply IH.
Qed.

Lemma fst_zip_take {X Y} (l : list X) (k : list Y) :
  (zip l k).*1 = take (length k) l.
Proof.
  revert k. induction l as [|x l IH]; intros [|y k]; simpl; [done..|].
  by rewrite IH.
Qed.

Lemma NoDup_entity_keys : NoDup entity_keys.
Proof. by apply (bool_decide_unpack (NoDup entity_keys)). Qed.

(** The value of the [i]-th entity key in [dict(zip(entity_keys, ids))]
    is the [i]-th id, and the key is missing when there is no such id. *)
Lemma lookup_zip_entity_keys (ids : list pyval) (i : nat) (k : string) :
  entity_keys !! i = Some k →
  dict_of_pairs (zip entity_keys ids) !! k = ids !! i.
Proof.
  intros Hk. unfold dict_of_pairs.
  assert (Hnd : NoDup (zip entity_keys ids).*1).
  { rewrite fst_zip_take.
    eapply sublist_NoDup; [apply NoDup_entity_keys|apply sublist_take]. }
  destruct (ids !! i) as [v|] eqn:Hv.
  - apply lookup_fold_insert_NoDup; [done|].
    apply (list_elem_of_lookup_2 _ i). rewrite lookup_zip_with, Hk.
    simpl. by rewrite Hv.
  - rewrite lookup_fold_insert_notin; [done|].
    rewrite fst_zip_take. intros Hin.
    apply elem_of_take in Hin as (j & Hj & Hlt).
    apply lookup_ge_None in Hv.
    assert (i = j) by (eapply NoDup_lookup; [apply NoDup_entity_keys|done..]).
    lia.
Qed.

Lemma lookup_zip_other_keys (ids : list pyval) (k : string) :
  k ∉ entity_keys → dict_of_pairs (zip entity_keys ids) !! k = None.
Proof.
  intros Hk. unfold dict_of_pairs. rewrite lookup_fold_insert_notin; [done|].
  rewrite fst_zip_take. intros Hin. apply Hk.
  by apply (subseteq_take (length ids) entity_keys).
Qed.

Lemma fold_optional (optional : list (string * pyval)) (d : dict) :
  fold_left (λ selection kv,
               if bool_decide (kv.1 ∉ entity_keys)
               then <[kv.1 := kv.2]> selection else selection) optional d
  = fold_left (λ d kv, <[kv.1 := kv.2]> d)
              (filter (λ kv, kv.1 ∉ entity_keys) optional) d.
Proof.
  revert d. induction optional as [|kv optional IH]; intros d; simpl; [done|].
  rewrite filter_cons. destruct (decide (kv.1 ∉ entity_keys)) as [Hk|Hk].
  - rewrite bool_decide_eq_true_2 by done. simpl. apply IH.
  - rewrite bool_decide_eq_false_2 by done. apply IH.
Qed.

Lemma mapM_inl_uniform {X Y} (f : X → pyerror + Y) (l : list X) (e : pyerror) :
  (∀ x e', f x = inl e' → e' = e) →
  Exists (λ x, ∃ e', f x = inl e') l →
  mapM f l = inl e.
Proof.
  intros Hall Hex. induction Hex as [x l (e' & Hx)|x l Hex IH]; simpl.
  - rewrite Hx. unfold mbind, sum_bind. f_equal. by eapply Hall.
  - rewrite IH. unfold mbind, sum_bind. destruct (f x) as [e'|y] eqn:Hx; [|done].
    f_equal. by eapply Hall.
Qed.

Section GDHFacts.

Variable frame : Type.
Variable DataFrame : list dict → frame.
Variable empty : frame → bool.
Variable set_column : frame → string → pyval → frame.
Variable has_column : frame → string → bool.
Variable to_datetime : frame → string → frame.
Variable merge_outer : frame → frame → frame.
Variable py_int : string → option Z.
Variable lookup : string → pyval → entity.
Variable lib_get_data_points : store → dict → list loc * store.

Local Abbreviation loop :=
  (get_df_loop frame DataFrame empty set_column has_column to_datetime
     merge_outer lookup lib_get_data_points).
Local Abbreviation run_GDH :=
  (GDH frame DataFrame empty set_column has_column to_datetime
     merge_outer py_int lookup lib_get_data_points).

Lemma GDH_selection_ok (gdh_selection : string)
    (optional_selections : list (string * pyval)) (ids : list Z) :
  Forall2 (λ x z, py_int x = Some z) (split_dash gdh_selection) ids →
  GDH_selection py_int gdh_selection optional_selections
  = inr (fold_left (λ d kv, <[kv.1 := kv.2]> d)
           (filter (λ kv, kv.1 ∉ entity_keys) optional_selections)
           (dict_of_pairs (zip entity_keys (VInt <$> ids)))).
Proof.
  intros Hids. unfold GDH_selection.
  assert (Hparse : mapM (λ x, match py_int x with
                              | Some z => inr (VInt z)
                              | None => inl ValueError
                              end) (split_dash gdh_selection)
                   = inr (VInt <$> ids)).
  { apply mapM_inr, Forall2_fmap_r. eapply Forall2_impl; [exact Hids|].
    intros x z Hx. simpl. by rewrite Hx. }
  rewrite Hparse. unfold mbind, sum_bind, mret, sum_ret.
  by rewrite fold_optional.
Qed.

Lemma GDH_selection_entity_key (optional_selections : list (string * pyval))
    (ids : list Z) (i : nat) (k : string) :
  entity_keys !! i = Some k →
  fold_left (λ d kv, <[kv.1 := kv.2]> d)
    (filter (λ kv, kv.1 ∉ entity_keys) optional_selections)
    (dict_of_pairs (zip entity_keys (VInt <$> ids))) !! k
  = VInt <$> ids !! i.
Proof.
  intros Hk. rewrite lookup_fold_insert_notin.
  - rewrite (lookup_zip_entity_keys _ i k Hk). apply list_lookup_fmap.
  - intros Hin. apply list_elem_of_fmap in Hin as ([k' v] & -> & Hin).
    apply list_elem_of_filter in Hin as [Hnot _]. simpl in Hnot.
    apply Hnot. by eapply list_elem_of_lookup_2.
Qed.

(** X19. When the pieces of the text between the dashes read as the numbers
    [ids], the selection of [GDH] gives the [i]-th of the six entity
    keys the [i]-th number, and leaves out the entity keys for which
    the text has no number, whatever the keyword arguments say about
    them; numbers after the sixth are dropped.  Every other key has the
    value of its keyword argument. *)
Theorem GDH_selection_keys (gdh_selection : string)
    (optional_selections : list (string * pyval)) (ids : list Z) :
  Forall2 (λ x z, py_int x = Some z) (split_dash gdh_selection) ids →
  NoDup optional_selections.*1 →
  ∃ selection,
    GDH_selection py_int gdh_selection optional_selections = inr selection
    ∧ (∀ i k, entity_keys !! i = Some k → selection !! k = VInt <$> ids !! i)
    ∧ (∀ k, k ∉ entity_keys →
            selection !! k = (list_to_map optional_selections : dict) !! k).
Proof.
  intros Hids Hnd. rewrite (GDH_selection_ok _ _ _ Hids).
  eexists. split; [done|]. split.
  - intros i k Hk. by apply GDH_selection_entity_key.
  - intros k Hk.
    destruct ((list_to_map optional_selections : dict) !! k) as [v|] eqn:Hv.
    + apply elem_of_list_to_map in Hv; [|done].
      apply lookup_fold_insert_NoDup.
      * eapply sublist_NoDup; [exact Hnd|].
        apply fmap_sublist, sublist_filter.
      * apply list_elem_of_filter. by split.
    + rewrite lookup_fold_insert_notin.
      * by apply lookup_zip_other_keys.
      * apply not_elem_of_list_to_map in Hv. intros Hin. apply Hv.
        apply list_elem_of_fmap in Hin as (kv & -> & Hin).
        apply list_elem_of_filter in Hin as [_ Hin].
        by apply list_elem_of_fmap_2.
Qed.

(** X20. When a piece of the text is not a number, [GDH] raises the value
    error before anything else happens: no series is saved, nothing is
    taken from the queue, and the store is as before. *)
Theorem GDH_value_error (gdh_selection : string)
    (optional_selections : list (string * pyval)) (c : client frame) (σ : store) :
  Exists (λ x, py_int x = None) (split_dash gdh_selection) →
  run_GDH gdh_selection optional_selections c σ
  = {| out_client := c; out_store := σ; out_taken := [];
       out_error := Some ValueError |}.
Proof.
  intros Hex. unfold GDH, GDH_selection.
  rewrite (mapM_inl_uniform _ _ ValueError); [done|..].
  - intros x e'. by destruct (py_int x); intros [= <-].
  - eapply Exists_impl; [exact Hex|]. intros x Hx. simpl. rewrite Hx. eauto.
Qed.

(** X21. When [GDH] returns, the new selection is a new object of the store,
    it is the last of the saved series, and it was fetched first,
    before the series that were still in the queue; the queue is
    empty. *)
Theorem GDH_saves (gdh_selection : string)
    (optional_selections : list (string * pyval)) (c : client frame) (σ : store) :
  let o := run_GDH gdh_selection optional_selections c σ in
  let data_series := fresh (dom σ) in
  out_error frame o = None →
  σ !! data_series = None
  ∧ _data_series_list frame (out_client frame o)
    = _data_series_list frame c ++ [data_series]
  ∧ _data_series_queue frame (out_client frame o) = []
  ∧ out_taken frame o = data_series :: reverse (_data_series_queue frame c).
Proof.
  intros o ds Herr. unfold o, GDH in *.
  destruct (GDH_selection py_int gdh_selection optional_selections) as [e|sel];
    [done|].
  unfold get_df in *. simpl in *. rewrite reverse_snoc in *.
  fold ds in Herr |- *.
  pose proof (get_df_loop_spec frame DataFrame empty set_column has_column
                to_datetime merge_outer lookup lib_get_data_points false
                (ds :: reverse (_data_series_queue frame c))
                (add_single_data_series frame c ds) (<[ds := sel]> σ) []) as Hspec.
  cbv zeta in Hspec. rewrite Herr in Hspec.
  destruct Hspec as (Hlist & Htaken & Hqueue).
  split; [apply not_elem_of_dom, is_fresh|].
  split; [done|]. split; [by apply Hqueue|done].
Qed.


End GDHFacts.

(** ** Series resolution, sample script and saved series on the examples *)

Lemma find_data_series_no_candidate_witness :
  selections_tried (demo_find demo_region_query).2 = []
  ∧ (demo_find demo_region_query).1 = demo_rank [].
Proof.
  apply (find_data_series_no_candidate 5 demo_search demo_get_data_series
           demo_rank demo_region_query ("region", "regions", "region_id")).
  - apply (list_elem_of_lookup_2 _ 1%nat). reflexivity.
  - reflexivity.
Defined.

Lemma find_data_series_stamps_witness :
  stamp demo_dated_query (<[ "frequency_id" := VInt 9 ]> {[ "item_id" := VInt 1 ]})
    !! "start_date"
  = Some (VStr "2017-01-01").
Proof.
  refine (proj1 (find_data_series_stamps 5 demo_search demo_get_data_series
                   demo_rank demo_dated_query
                   (series_of 5 demo_search demo_get_data_series demo_dated_query)
                   _ _ _) _).
  - apply (list_elem_of_lookup_2 _ 3%nat). reflexivity.
  - apply (list_elem_of_lookup_2 _ 0%nat). reflexivity.
  - reflexivity.
Defined.

Lemma find_data_series_first_selection_witness :
  selections_tried (demo_find demo_query).2 !! 0%nat
  = Some (<[ "item_id" := VInt 1 ]> {[ "metric_id" := VInt 10 ]}).
Proof.
  etransitivity.
  - apply (find_data_series_first_selection 5 demo_search demo_get_data_series
             demo_rank demo_query); [lia|].
    intros r Hr.
    assert (Hroles : present_roles demo_query
                     = [("item", "items", "item_id");
                        ("metric", "metrics", "metric_id")]) by reflexivity.
    rewrite Hroles in Hr. rewrite !elem_of_cons in Hr.
    destruct Hr as [->|[->|Hr]]; [discriminate..|].
    by apply elem_of_nil in Hr.
  - reflexivity.
Defined.

Lemma entities_list_ok_witness :
  ∃ entities,
    AnalogousYears.entities_list demo_lookup_raises [VInt 100000100]
      [VInt 2039; VInt 3457] [VInt 2100031; VInt 2540047]
      [VInt 35; VInt 26] [VInt 1; VInt 1]
    = inr entities
    ∧ length entities = 2%nat.
Proof.
  destruct (entities_list_ok demo_lookup_raises [VInt 100000100]
              [VInt 2039; VInt 3457] [VInt 2100031; VInt 2540047]
              [VInt 35; VInt 26] [VInt 1; VInt 1] (VInt 100000100))
    as (entities & Heq & Hlen & _);
    [reflexivity..| | | | | |].
  - by repeat constructor.
  - by repeat constructor.
  - reflexivity.
  - by repeat constructor.
  - by repeat constructor.
  - exists entities. by split.
Defined.

Lemma entities_list_mismatch_witness :
  AnalogousYears.entities_list demo_lookup_raises [VInt 100000100]
    [VInt 2039] [VInt 2100031; VInt 2540047] [VInt 35; VInt 26] [VInt 1; VInt 1]
  = inl ArgumentTypeError.
Proof.
  apply (entities_list_mismatch demo_lookup_raises). left. simpl. lia.
Defined.

Lemma entities_list_no_region_witness :
  AnalogousYears.entities_list demo_lookup_raises []
    [VInt 2039] [VInt 2100031] [VInt 35] [VInt 1]
  = inl IndexError.
Proof.
  refine (proj2 (entities_list_no_region demo_lookup_raises
                   [VInt 2039] [VInt 2100031] [VInt 35] [VInt 1]
                   (VInt 2100031) (VInt 2039) _ _ _) _ _ _ _); reflexivity.
Defined.

Lemma pick_random_data_series_in_range_witness :
  match pick_random_data_series demo_get_data_series (Q2Qc (1 # 2)) ∅ with
  | inr data_series => data_series ∈ demo_get_data_series ∅
  | inl e => e = NoDataSeries ∧ demo_get_data_series ∅ = []
  end.
Proof.
  apply (pick_random_data_series_in_range demo_get_data_series (Q2Qc (1 # 2)) ∅).
  - by vm_compute.
  - by vm_compute.
Defined.

Lemma demo_keeps_objects : keeps_objects demo_get_data_points.
Proof.
  intros σ selections q Hq. unfold demo_get_data_points. simpl.
  unfold deref at 1. rewrite lookup_insert_ne; [done|].
  intros <-. apply Hq. unfold deref.
  by rewrite (not_elem_of_dom_1 σ (fresh (dom σ)) (is_fresh (dom σ))).
Qed.


Lemma get_df_drains_witness :
  let o := demo_get_df false (demo_client [0%nat]) demo_series_store in
  _data_series_queue _ (out_client _ o) = []
  ∧ out_taken _ o = [0%nat].
Proof.
  intros o.
  destruct (get_df_drains (list dict) (λ points, points) demo_empty
              demo_set_column demo_has_column demo_to_datetime
              (λ f tmp, f ++ tmp) demo_units demo_get_data_points
              false (demo_client [0%nat]) demo_series_store eq_refl)
    as (Hq & _ & Ht & _).
  split; [exact Hq|exact Ht].
Defined.

Lemma get_df_raises_witness :
  let o := demo_get_df false (demo_client [0%nat; 1%nat]) demo_series_store in
  out_error _ o = Some (KeyError "source_id")
  ∧ ∃ data_series later,
      [0%nat; 1%nat] = _data_series_queue _ (out_client _ o) ++ data_series :: later
      ∧ out_taken _ o = reverse later ++ [data_series].
Proof.
  intros o. split; [reflexivity|].
  exact (proj2 (get_df_raises (list dict) (λ points, points) demo_empty
                  demo_set_column demo_has_column demo_to_datetime
                  (λ f tmp, f ++ tmp) demo_units demo_get_data_points
                  false (demo_client [0%nat; 1%nat]) demo_series_store
                  (KeyError "source_id") eq_refl)).
Defined.

Lemma get_df_marks_saved_series_witness :
  let o := demo_get_df true (demo_client [0%nat]) demo_series_store in
  deref (out_store _ o) 0%nat !! "show_revisions" = Some (VBool true).
Proof.
  apply (get_df_marks_saved_series (list dict) (λ points, points) demo_empty
           demo_set_column demo_has_column demo_to_datetime
           (λ f tmp, f ++ tmp) demo_units demo_get_data_points
           (demo_client [0%nat]) demo_series_store 0%nat demo_keeps_objects).
  apply (list_elem_of_lookup_2 _ 0%nat). reflexivity.
Defined.

Lemma GDH_selection_keys_witness :
  ∃ selection,
    GDH_selection demo_int "860032-274-1231"
      [("unit_id", VInt 10); ("source_id", VInt 5)] = inr selection
    ∧ selection !! "region_id" = Some (VInt 1231)
    ∧ selection !! "source_id" = None
    ∧ selection !! "unit_id" = Some (VInt 10).
Proof.
  destruct (GDH_selection_keys demo_int "860032-274-1231"
              [("unit_id", VInt 10); ("source_id", VInt 5)] [860032; 274; 1231])
    as (selection & Heq & Hkeys & Hother).
  - by repeat constructor.
  - by apply (bool_decide_unpack _).
  - exists selection. split; [exact Heq|]. split; [|split].
    + apply (Hkeys 2%nat). reflexivity.
    + apply (Hkeys 4%nat). reflexivity.
    + rewrite Hother; [reflexivity|]. by apply (bool_decide_unpack _).
Defined.

Lemma GDH_value_error_witness :
  demo_GDH "860032--274" [] (demo_client [0%nat]) demo_series_store
  = {| out_client := demo_client [0%nat]; out_store := demo_series_store;
       out_taken := []; out_error := Some ValueError |}.
Proof.
  apply (GDH_value_error (list dict)).
  apply Exists_cons_tl, Exists_cons_hd. reflexivity.
Defined.

Lemma GDH_saves_witness :
  let o := demo_GDH "860032-274-1231-0-14-9" [] (demo_client []) ∅ in
  _data_series_list _ (out_client _ o) = [fresh (dom (∅ : store))]
  ∧ _data_series_queue _ (out_client _ o) = [].
Proof.
  intros o.
  assert (Hnone : out_error _ o = None) by (vm_compute; reflexivity).
  destruct (GDH_saves (list dict) (λ points, points) demo_empty
              demo_set_column demo_has_column demo_to_datetime
              (λ f tmp, f ++ tmp) demo_int demo_units demo_get_data_points
              "860032-274-1231-0-14-9" [] (demo_client []) ∅ Hnone)
    as (_ & Hl & Hq & _).
  split; [exact Hl|exact Hq].
Defined.


Lemma convert_unit_from_not_convertible_witness :
  convert_unit demo_units (demo_store 43) 0%nat (VInt 99)
  = Raise (NotConvertible (VInt 43)).
Proof.
  apply (convert_unit_from_not_convertible demo_units (demo_store 43) 0%nat
           (VInt 99) {[ "factor" := VNone ]}).
  - discriminate.
  - by vm_compute.
  - reflexivity.
  - reflexivity.
Defined.

Lemma convert_unit_to_not_convertible_witness :
  convert_unit demo_units (demo_store 14) 0%nat (VInt 43)
  = Raise (NotConvertible (VInt 43)).
Proof.
  apply (convert_unit_to_not_convertible demo_units (demo_store 14) 0%nat
           (VInt 43) {[ "factor" := VInt 1000 ]} {[ "factor" := VNone ]}).
  - discriminate.
  - by vm_compute.
  - reflexivity.
  - reflexivity.
  - reflexivity.
  - reflexivity.
Defined.

(** ** Source ranking *)

Import SourceRanker.

Lemma with_source_strip (s : dict) (source_id : Z) :
  <["source_id" := VInt source_id]> (strip_source s) = with_source s source_id.
Proof.
  unfold strip_source, with_source. apply map_eq. intros k.
  destruct (decide (k = "source_id")) as [->|Hid].
  { rewrite lookup_insert_eq, lookup_delete_ne by done.
    by rewrite lookup_insert_eq. }
  rewrite lookup_insert_ne by done.
  destruct (decide (k = "source_name")) as [->|Hname].
  { by rewrite !lookup_delete_eq. }
  by rewrite !lookup_delete_ne, lookup_insert_ne.
Qed.

Lemma with_source_no_name (s : dict) (source_id : Z) :
  s !! "source_name" = None →
  with_source s source_id = <["source_id" := VInt source_id]> s.
Proof.
  intros Hs. unfold with_source. apply delete_id.
  by rewrite lookup_insert_ne.
Qed.

Section RankFacts.

Variable rankSources : dict → list Z.

Lemma rank_cons (s : dict) (selections : list dict) :
  rank_series_by_source rankSources (s :: selections)
  = (with_source s <$> rankSources (strip_source s))
    ++ rank_series_by_source rankSources selections.
Proof.
  unfold rank_series_by_source at 1. simpl. f_equal.
  apply list_fmap_ext. intros _ id _. apply with_source_strip.
Qed.

Lemma rank_app (l1 l2 : list dict) :
  rank_series_by_source rankSources (l1 ++ l2) = rank_series_by_source rankSources l1 ++ rank_series_by_source rankSources l2.
Proof. unfold rank_series_by_source. apply bind_app. Qed.

(** C8. The output of [rank_series_by_source] is, selection by selection in input
    order, one descriptor per ranked source id in the order of the
    ranking: the input selection with [source_id] set to that id and
    without [source_name].  No output item has a [source_name], and
    selections ranked to [11, 22, 33] and [44, 55] give exactly the
    five descriptors, in that order. *)
Theorem rank_in_input_order (selections : list dict) :
  rank_series_by_source rankSources selections
  = (s ← selections; with_source s <$> rankSources (strip_source s))
  ∧ Forall (λ d, d !! "source_name" = None) (rank_series_by_source rankSources selections)
  ∧ (∀ s id, s ∈ selections → s !! "source_name" = None →
             with_source s id = <["source_id" := VInt id]> s)
  ∧ ∀ S1 S2,
      selections = [S1; S2] →
      rankSources (strip_source S1) = [11; 22; 33] →
      rankSources (strip_source S2) = [44; 55] →
      rank_series_by_source rankSources selections
      = [ with_source S1 11; with_source S1 22; with_source S1 33;
          with_source S2 44; with_source S2 55 ].
Proof.
  assert (Heq : rank_series_by_source rankSources selections
                = (s ← selections;
                   with_source s <$> rankSources (strip_source s))).
  { induction selections as [|s l IH]; [done|].
    rewrite rank_cons, IH. done. }
  split; [done|]. split; [|split].
  - rewrite Heq. apply Forall_forall. intros d Hd.
    apply list_elem_of_bind in Hd as (s & Hd & _).
    apply list_elem_of_fmap in Hd as (id & -> & _).
    apply lookup_delete_eq.
  - intros s id _ Hs. by apply with_source_no_name.
  - intros S1 S2 -> H1 H2. rewrite !rank_cons, H1, H2. done.
Qed.

End RankFacts.

Example test_rank_series_by_source :
  let c := rank_series_by_source (λ _, [11; 22; 33]) [test_a; test_b] in
  length c = 6%nat
  ∧ forallb (λ x, negb (contains x "source_name")) c = true
  ∧ (λ x, get x "source_id") <$> c
    = VInt <$> [11; 22; 33; 11; 22; 33].
Proof. repeat split; reflexivity. Qed.

(** ** Descendant regions *)

Import RegionTreeFilter.

Section FilterFacts.

Variable listDescendants : Z → option Z → option (list Z).
Variable lookup : Z → option Entity.

Lemma lookup_all_inr (ids : list Z) (resolved : list (Z * Entity)) :
  lookup_all lookup ids = inr resolved →
  resolved.*1 = ids ∧ Forall (λ ie, lookup ie.1 = Some ie.2) resolved.
Proof.
  revert resolved. induction ids as [|i ids IH]; intros resolved; simpl.
  { intros [= <-]. by split. }
  destruct (lookup i) as [e|] eqn:Hi; [|done].
  destruct (lookup_all lookup ids) as [|es']; [done|].
  intros [= <-]. destruct (IH es' eq_refl) as [Hids Hall].
  split; [simpl; by f_equal|]. by constructor.
Qed.

(** C9. Without historical regions, no descendant that resolves to a
    historical region is in the answer, as an entity or as an id,
    whether details are asked for or not, and every other descendant
    is; without details, every descendant in the answer is an id
    alone.  For region 3 of the tests the answers are [[region 2]]
    without historical regions, [[{id: 1}, {id: 2}]] without details,
    and [[{id: 2}]] without both. *)
Theorem get_descendant_regions_filters :
  (∀ region_id level include_details ids out,
     listDescendants region_id level = Some ids →
     get_descendant_regions listDescendants lookup region_id level
       false include_details = inr out →
     ∀ i e, lookup i = Some e →
            (historical e = true → (IdOnly i ∉ out) ∧ (Details e ∉ out))
            ∧ (i ∈ ids → historical e = false →
               (if include_details then Details e else IdOnly i) ∈ out))
  ∧ (∀ region_id level include_historical out,
       get_descendant_regions listDescendants lookup region_id level
         include_historical false = inr out →
       Forall (λ d, ∃ i, d = IdOnly i) out)
  ∧ get_descendant_regions mock_descendants LOOKUP_MAP 3 None false true
    = inr [Details region_2]
  ∧ get_descendant_regions mock_descendants LOOKUP_MAP 3 None true false
    = inr [IdOnly 1; IdOnly 2]
  ∧ get_descendant_regions mock_descendants LOOKUP_MAP 3 None false false
    = inr [IdOnly 2].
Proof.
  split; [|split; [|by repeat split]].
  - intros region_id level include_details ids out Hids.
    unfold get_descendant_regions. rewrite Hids, orb_true_r.
    destruct (lookup_all lookup ids) as [|resolved] eqn:Hres; [done|].
    intros [= <-]. apply lookup_all_inr in Hres as [Hfst Hall].
    rewrite Forall_forall in Hall.
    intros i e Hie. split.
    + intros Hh.
      assert (Hno : ∀ ie, ie ∈ filter (λ ie : Z * Entity,
                               false = true ∨ historical ie.2 = false) resolved →
                          (ie.1 = i ∨ ie.2 = e) → False).
      { intros [j e'] Hin. apply list_elem_of_filter in Hin as [[?|Hf] Hin];
          [done|].
        apply Hall in Hin. simpl in *. intros [->| ->]; congruence. }
      split; intros Hin; apply list_elem_of_fmap in Hin as (ie & Heq & Hin);
        apply (Hno ie Hin); destruct include_details; simplify_eq; auto.
    + intros Hi Hf. rewrite <- Hfst in Hi.
      apply list_elem_of_fmap in Hi as ([j e'] & -> & Hin). simpl in *.
      pose proof (Hall _ Hin) as Hje. simpl in Hje.
      assert (e' = e) as -> by congruence.
      apply list_elem_of_fmap. exists (j, e). split; [done|].
      apply list_elem_of_filter. split; [by right|done].
  - intros region_id level include_historical out.
    unfold get_descendant_regions.
    destruct (listDescendants region_id level) as [ids|]; [|done].
    simpl. destruct include_historical; simpl.
    + intros [= <-]. apply Forall_fmap, Forall_forall. intros i _. by exists i.
    + destruct (lookup_all lookup ids) as [|resolved]; [done|].
      intros [= <-]. apply Forall_fmap, Forall_forall.
      intros [i e] _. by exists i.
Qed.

End FilterFacts.
